(** * AeroEyeBot: area-monitoring engine

    A shallow embedding of [aeroeyebot.py]: the bounding-box validation,
    the containment test applied to feed records, the per-flight
    notification cooldown and its sweep, the area store and the monitoring
    cycle, together with the properties stated for them. *)

From Stdlib Require Import ZArith QArith Lia.
From stdpp Require Import base option list strings gmap fin_maps pretty.
From Stdlib Require Import Ascii.

Local Open Scope Z_scope.
Set Warnings "-register-all".

(** ** Python values *)

(** A Python [float]: the finite values are rationals (comparison of
    floats is exact, so only the order matters here), plus the two
    infinities and NaN, which [float("inf")], [float("nan")] and the JSON
    decoder can all produce. *)
Inductive pyfloat :=
| Finite (q : Q)
| PosInf
| NegInf
| NaN.

(** [x <= y] on floats; every comparison with NaN is false. *)
Definition float_le (x y : pyfloat) : bool :=
  match x, y with
  | NaN, _ => false
  | _, NaN => false
  | NegInf, _ => true
  | _, PosInf => true
  | Finite a, Finite b => Qle_bool a b
  | _, _ => false
  end.

(** [x >= y] is [y <= x]. *)
Definition float_ge (x y : pyfloat) : bool := float_le y x.

(** [bool(x)] for a float: only zero is falsy. *)
Definition float_truthy (x : pyfloat) : bool :=
  match x with
  | Finite q => negb (Qeq_bool q 0)
  | _ => true
  end.

Definition float_of_Z (z : Z) : pyfloat := Finite (inject_Z z).

(** The values a decoded JSON document is made of. *)
Inductive json :=
| JNull
| JBool (b : bool)
| JInt (z : Z)
| JFloat (f : pyfloat)
| JStr (s : string)
| JArr (l : list json)
| JObj (l : list (string * json)).

(** The exception classes that occur; all derive from [Exception]. *)
Inductive exn :=
| IndexError
| KeyError
| TypeError
| AttributeError
| JSONDecodeError
| RequestException
| ApiException
| DatabaseError.

(** ** Exceptions as results *)

Inductive res (A : Type) :=
| Ok (a : A)
| Raise (e : exn).
Arguments Ok {A} a.
Arguments Raise {A} e.

Module Res.
Definition bind {A B} (m : res A) (f : A → res B) : res B :=
  match m with
  | Ok a => f a
  | Raise e => Raise e
  end.

(** [try: m except Exception: h] *)
Definition try_except {A} (m : res A) (h : exn → res A) : res A :=
  match m with
  | Ok a => Ok a
  | Raise e => h e
  end.
End Res.

#[global] Instance res_ret : MRet res := λ A, Ok.
#[global] Instance res_bind : MBind res := λ A B f m, Res.bind m f.

(** [bool(v)], as used by [not v], [if v] and [v or d]. *)
Definition truthy (v : json) : bool :=
  match v with
  | JNull => false
  | JBool b => b
  | JInt z => negb (z =? 0)
  | JFloat f => float_truthy f
  | JStr s => negb (String.length s =? 0)%nat
  | JArr l => negb (length l =? 0)%nat
  | JObj l => negb (length l =? 0)%nat
  end.

(** [len(v)] *)
Definition py_len (v : json) : res nat :=
  match v with
  | JArr l => Ok (length l)
  | JStr s => Ok (String.length s)
  | JObj l => Ok (length l)
  | _ => Raise TypeError
  end.

(** [v[i]] for a non-negative integer literal [i]. *)
Definition py_getitem (v : json) (i : nat) : res json :=
  match v with
  | JArr l =>
      match l !! i with
      | Some x => Ok x
      | None => Raise IndexError
      end
  | JStr s =>
      match String.get i s with
      | Some c => Ok (JStr (String c EmptyString))
      | None => Raise IndexError
      end
  | JObj _ => Raise KeyError
  | _ => Raise TypeError
  end.

(** The numeric value a JSON value takes in a comparison with a float;
    [bool] is a subclass of [int]. Anything else raises [TypeError]. *)
Definition as_number (v : json) : res pyfloat :=
  match v with
  | JInt z => Ok (float_of_Z z)
  | JFloat f => Ok f
  | JBool b => Ok (float_of_Z (if b then 1 else 0))
  | _ => Raise TypeError
  end.

(** [lo <= v <= hi] with [lo], [hi] floats: [lo <= v and v <= hi], the
    second comparison evaluated only when the first holds. *)
Definition chained_le (lo : pyfloat) (v : json) (hi : pyfloat) : res json :=
  x ← as_number v;
  if float_le lo x then Ok (JBool (float_le x hi)) else Ok (JBool false).

(** [a and b], with [b] evaluated only when [a] is truthy. *)
Definition py_and (a : json) (b : res json) : res json :=
  if truthy a then b else Ok a.

(** ** Monitoring areas *)

(** The dictionary [start_user_monitoring] stores per subscriber. *)
Record area := Area {
  north : pyfloat;
  south : pyfloat;
  east : pyfloat;
  west : pyfloat;
  chat_id : Z
}.

(** [validate_coordinates] *)
Definition validate_coordinates (north south east west : pyfloat) : bool :=
  if negb (float_le (float_of_Z (-90)) north && float_le north (float_of_Z 90)
           && (float_le (float_of_Z (-90)) south && float_le south (float_of_Z 90)))
  then false
  else if negb (float_le (float_of_Z (-180)) east && float_le east (float_of_Z 180)
                && (float_le (float_of_Z (-180)) west && float_le west (float_of_Z 180)))
  then false
  else if float_le north south then false
  else if float_ge west east then false
  else true.

(** The body of [is_flight_in_area], inside its [try]. *)
Definition is_flight_in_area_body (flight_state : json) (a : area) : res json :=
  n ← py_len flight_state;
  if (n <? 7)%nat then Ok (JBool false) else
  longitude ← py_getitem flight_state 5;
  latitude ← py_getitem flight_state 6;
  on_ground ← py_getitem flight_state 8;
  if negb (truthy longitude) || negb (truthy latitude) || truthy on_ground
  then Ok (JBool false)
  else
    inside_lat ← chained_le (south a) latitude (north a);
    py_and inside_lat (chained_le (west a) longitude (east a)).

(** [is_flight_in_area]: any exception makes it return [False]. *)
Definition is_flight_in_area (flight_state : json) (a : area) : res json :=
  Res.try_except (is_flight_in_area_body flight_state a)
                 (λ _, Ok (JBool false)).

(** ** Time *)

(** A naive [datetime] is a number of microseconds; the difference of two
    is a [timedelta], normalised into days, seconds and microseconds with
    [0 <= seconds < 86400]. [td_seconds] is its [.seconds] attribute. *)
Definition td_seconds (delta : Z) : Z := (delta `mod` 86400000000) `div` 1000000.

(** [.days] of the same difference. *)
Definition td_days (delta : Z) : Z := delta `div` 86400000000.

Definition seconds (n : Z) : Z := n * 1000000.
Definition minutes (n : Z) : Z := seconds (60 * n).

(** ** The notification cooldown *)

(** The test that makes the cycle skip a flight: the key has a record and
    [(datetime.now() - record).seconds < 1800]. *)
Definition in_cooldown (notified_flights : gmap string Z) (key : string) (now : Z) : bool :=
  match notified_flights !! key with
  | Some last => td_seconds (now - last) <? 1800
  | None => false
  end.

(** The dictionary comprehension that ends every cycle. *)
Definition cleanup_old_notifications (notified_flights : gmap string Z) (current_time : Z)
  : gmap string Z :=
  filter (λ kv, td_seconds (current_time - kv.2) < 3600) notified_flights.

(** ** The bot's state and its environment *)

(** A row of the [monitoring_areas] table, keyed by [chat_id]. *)
Record area_row := AreaRow {
  area_name : option string;
  north_lat : pyfloat;
  south_lat : pyfloat;
  east_lon : pyfloat;
  west_lon : pyfloat;
  is_active : Z;
  created_at : Z
}.

(** What the bot sends. The text of a flight notification is determined by
    the feed record, the area and the clock reading it is formatted with;
    the wording itself is not modelled. [FlightDetected] is the short text
    sent instead when the formatting fails. *)
Inductive message :=
| SetAreaFirst
| MonitoringStarted (north south east west : pyfloat)
| MonitoringStopped
| MonitoringNotActive
| FlightNotification (flight_state : json) (a : area) (time : Z)
| FlightDetected (time : Z).

(** The distinct lines the logger is given. *)
Inductive log_line :=
| StartingLoop
| StartedMonitoring (chat : Z)
| StoppedMonitoring (chat : Z)
| ApiError (status : Z)
| ErrorFetchingFlights (e : exn)
| SentNotification (chat : Z) (icao24 : string)
| FailedToSend (chat : Z) (e : exn)
| ErrorMonitoringArea (chat : Z) (e : exn)
| ErrorInLoop (e : exn)
| ErrorFormattingNotification.

(** What the bot does to the outside, newest first in [trace]. *)
Inductive event :=
| HttpGet (a : area)
| SendMessage (chat : Z) (m : message)
| LogInfo (l : log_line)
| LogError (l : log_line)
| Sleep (secs : Z).

(** The object's fields: the storage table, the two in-memory
    dictionaries ([monitoring_areas] in insertion order, since the cycle
    iterates over it), and the record of what happened. [tick] counts the
    interactions with the environment so far. *)
Record bot := Bot {
  table : gmap Z area_row;
  monitoring_areas : list (Z * area);
  notified_flights : gmap string Z;
  trace : list event;
  tick : nat
}.

(** What [requests.get] gives: an exception (connection failure,
    timeout), or a response with a status code and the outcome of
    decoding its body. *)
Inductive http_result :=
| HttpFailure (e : exn)
| HttpResponse (status_code : Z) (body : res json).

(** The environment, indexed by [tick] so that the same call may be
    answered differently each time it is made. [formatting] stands for the
    floating-point arithmetic and the formatting of the fields inside
    [format_flight_notification] (distance to the centre, unit
    conversions, [callsign.strip()], [:.4f]): whether they go through or
    raise for a record and an area. *)
Record world := World {
  clock : nat → Z;
  current_timestamp : nat → Z;
  requests_get : nat → area → http_result;
  send_message : nat → Z → message → res unit;
  repr : json → string;
  formatting : json → area → res unit
}.

(** ** State and exceptions *)

Definition M (A : Type) : Type := bot → res A * bot.

Module Bot.
Definition ret {A} (a : A) : M A := λ st, (Ok a, st).

Definition bind {A B} (m : M A) (f : A → M B) : M B :=
  λ st, match m st with
        | (Ok a, st') => f a st'
        | (Raise e, st') => (Raise e, st')
        end.

Definition raise {A} (e : exn) : M A := λ st, (Raise e, st).

(** A pure computation that may raise. *)
Definition lift {A} (r : res A) : M A := λ st, (r, st).

(** [try: m except Exception as e: h e]; what [m] did to the state
    before raising stays done. *)
Definition try_except {A} (m : M A) (h : exn → M A) : M A :=
  λ st, match m st with
        | (Ok a, st') => (Ok a, st')
        | (Raise e, st') => h e st'
        end.

Definition get : M bot := λ st, (Ok st, st).

Definition emit (ev : event) : M unit :=
  λ st, (Ok tt, Bot (table st) (monitoring_areas st) (notified_flights st)
                    (ev :: trace st) (tick st)).

Definition next_tick : M nat :=
  λ st, (Ok (tick st), Bot (table st) (monitoring_areas st) (notified_flights st)
                           (trace st) (S (tick st))).

Definition set_table (t : gmap Z area_row) : M unit :=
  λ st, (Ok tt, Bot t (monitoring_areas st) (notified_flights st) (trace st) (tick st)).

Definition set_monitoring_areas (d : list (Z * area)) : M unit :=
  λ st, (Ok tt, Bot (table st) d (notified_flights st) (trace st) (tick st)).

Definition set_notified_flights (d : gmap string Z) : M unit :=
  λ st, (Ok tt, Bot (table st) (monitoring_areas st) d (trace st) (tick st)).

(** [for x in l: body x] *)
Fixpoint for_each {X} (l : list X) (body : X → M unit) : M unit :=
  match l with
  | [] => ret tt
  | x :: l' => bind (body x) (λ _, for_each l' body)
  end.
End Bot.

#[global] Instance M_ret : MRet M := @Bot.ret.
#[global] Instance M_bind : MBind M := λ A B f m, Bot.bind m f.

(** ** Dictionaries in insertion order *)

Module Dict.
Section dict.
Context {V : Type}.

Definition get (k : Z) (d : list (Z * V)) : option V :=
  snd <$> find (λ kv, bool_decide (kv.1 = k)) d.

Definition mem (k : Z) (d : list (Z * V)) : bool :=
  bool_decide (is_Some (get k d)).

(** [d[k] = v]: in place when the key is there, at the end otherwise. *)
Fixpoint set (k : Z) (v : V) (d : list (Z * V)) : list (Z * V) :=
  match d with
  | [] => [(k, v)]
  | kv :: d' => if bool_decide (kv.1 = k) then (k, v) :: d' else kv :: set k v d'
  end.

(** [del d[k]] *)
Definition del (k : Z) (d : list (Z * V)) : list (Z * V) :=
  filter (λ kv, kv.1 ≠ k) d.
End dict.
End Dict.

(** ** More of Python *)

(** [for x in v]: the elements of a list, the characters of a string, the
    keys of a dictionary; nothing else is iterable. *)
Definition py_iter (v : json) : res (list json) :=
  match v with
  | JArr l => Ok l
  | JStr s => Ok ((λ c, JStr (String c EmptyString)) <$> String.list_ascii_of_string s)
  | JObj l => Ok ((λ kv, JStr kv.1) <$> l)
  | _ => Raise TypeError
  end.

(** [a or b] *)
Definition py_or (a b : json) : json := if truthy a then a else b.

(** [data.get(key, default)]: only a dictionary has [get]. *)
Definition py_get (data : json) (key : string) (default : json) : res json :=
  match data with
  | JObj l =>
      match find (λ kv, bool_decide (kv.1 = key)) l with
      | Some kv => Ok kv.2
      | None => Ok default
      end
  | _ => Raise AttributeError
  end.

(** ** The operations of the bot *)

Section engine.
Variable w : world.

(** [datetime.now()] *)
Definition now : M Z :=
  t ← Bot.next_tick; mret (clock w t).

Definition logger_info (l : log_line) : M unit := Bot.emit (LogInfo l).
Definition logger_error (l : log_line) : M unit := Bot.emit (LogError l).
Definition sleep (secs : Z) : M unit := Bot.emit (Sleep secs).

(** [self.bot.send_message], which raises when delivery fails. *)
Definition bot_send_message (chat : Z) (m : message) : M unit :=
  t ← Bot.next_tick;
  Bot.emit (SendMessage chat m);;
  Bot.lift (send_message w t chat m).

(** What an f-string makes of a value. *)
Definition py_format (v : json) : string :=
  match v with
  | JStr s => s
  | JInt z => pretty z
  | JBool b => if b then "True" else "False"
  | JNull => "None"
  | _ => repr w v
  end.

(** [save_user_area]: [INSERT OR REPLACE] names six columns; the row it
    writes takes the defaults for the other two. *)
Definition save_user_area (chat : Z) (north south east west : pyfloat) : M unit :=
  t ← Bot.next_tick;
  st ← Bot.get;
  Bot.set_table
    (<[chat := AreaRow None north south east west 1 (current_timestamp w t)]> (table st)).

(** [SELECT * FROM monitoring_areas WHERE chat_id = ? AND is_active = 1] *)
Definition select_active_area (chat : Z) (t : gmap Z area_row) : option area_row :=
  match t !! chat with
  | Some row => if is_active row =? 1 then Some row else None
  | None => None
  end.

(** [start_user_monitoring], for a message from [chat]. *)
Definition start_user_monitoring (chat : Z) : M unit :=
  st ← Bot.get;
  match select_active_area chat (table st) with
  | None => bot_send_message chat SetAreaFirst
  | Some row =>
      Bot.set_monitoring_areas
        (Dict.set chat
           (Area (north_lat row) (south_lat row) (east_lon row) (west_lon row) chat)
           (monitoring_areas st));;
      bot_send_message chat
        (MonitoringStarted (north_lat row) (south_lat row) (east_lon row) (west_lon row));;
      logger_info (StartedMonitoring chat)
  end.

(** [stop_user_monitoring] *)
Definition stop_user_monitoring (chat : Z) : M unit :=
  st ← Bot.get;
  if Dict.mem chat (monitoring_areas st) then
    Bot.set_monitoring_areas (Dict.del chat (monitoring_areas st));;
    bot_send_message chat MonitoringStopped;;
    logger_info (StoppedMonitoring chat)
  else bot_send_message chat MonitoringNotActive.

(** [get_flights_in_area] *)
Definition get_flights_in_area (a : area) : M json :=
  Bot.try_except
    (t ← Bot.next_tick;
     Bot.emit (HttpGet a);;
     match requests_get w t a with
     | HttpFailure e => Bot.raise e
     | HttpResponse status_code body =>
         if status_code =? 200 then
           data ← Bot.lift body;
           if truthy data then Bot.lift (py_get data "states" (JArr []))
           else mret (JArr [])
         else
           logger_error (ApiError status_code);;
           mret (JArr [])
     end)
    (λ e, logger_error (ErrorFetchingFlights e);; mret (JArr [])).

(** The [try] body of [format_flight_notification] up to the reading of
    the clock: the nine fields it reads by index, in this order, and then
    the arithmetic and the formatting of the fields. *)
Definition format_fields (flight_state : json) (a : area) : res unit :=
  py_getitem flight_state 0;;
  py_getitem flight_state 1;;
  py_getitem flight_state 2;;
  py_getitem flight_state 5;;
  py_getitem flight_state 6;;
  py_getitem flight_state 7;;
  py_getitem flight_state 9;;
  py_getitem flight_state 10;;
  py_getitem flight_state 11;;
  formatting w flight_state a.

(** [format_flight_notification]: the clock is the last thing the text
    takes, so it is read once on either path. When the body raises, the
    [except] clause logs the error and returns the short text; the text
    of the exception is left out of the line. *)
Definition format_flight_notification (flight_state : json) (a : area) : M message :=
  Bot.try_except
    (Bot.lift (format_fields flight_state a);;
     t ← now;
     mret (FlightNotification flight_state a t))
    (λ _, logger_error ErrorFormattingNotification;;
          t ← now;
          mret (FlightDetected t)).

(** The key of the cooldown record of a subscriber and an aircraft. *)
Definition notification_key (chat : Z) (icao24 : json) : string :=
  pretty chat +:+ "_" +:+ py_format icao24.

(** The body of [for flight_state in flights]. *)
Definition handle_flight (chat : Z) (a : area) (flight_state : json) : M unit :=
  inside ← Bot.lift (is_flight_in_area flight_state a);
  if truthy inside then
    first ← Bot.lift (py_getitem flight_state 0);
    let icao24 := py_or first (JStr "unknown") in
    let key := notification_key chat icao24 in
    st ← Bot.get;
    skip ← (if bool_decide (is_Some (notified_flights st !! key))
            then t ← now; mret (in_cooldown (notified_flights st) key t)
            else mret false);
    if skip : bool then mret tt
    else
      message ← format_flight_notification flight_state a;
      Bot.try_except
        (bot_send_message chat message;;
         t ← now;
         st' ← Bot.get;
         Bot.set_notified_flights (<[key := t]> (notified_flights st'));;
         logger_info (SentNotification chat (py_format icao24)))
        (λ e, logger_error (FailedToSend chat e))
  else mret tt.

(** The body of [for chat_id, area in ...], a [try] around one
    subscriber. *)
Definition monitor_area (chat : Z) (a : area) : M unit :=
  Bot.try_except
    (flights ← get_flights_in_area a;
     l ← Bot.lift (py_iter flights);
     Bot.for_each l (handle_flight chat a))
    (λ e, logger_error (ErrorMonitoringArea chat e)).

(** One pass through the body of [while True] in [monitor_flights]. *)
Definition monitor_cycle : M unit :=
  Bot.try_except
    (st ← Bot.get;
     if (length (monitoring_areas st) =? 0)%nat then sleep 60
     else
       Bot.for_each (monitoring_areas st) (λ kv, monitor_area kv.1 kv.2);;
       current_time ← now;
       st' ← Bot.get;
       Bot.set_notified_flights
         (cleanup_old_notifications (notified_flights st') current_time);;
       sleep 180)
    (λ e, logger_error (ErrorInLoop e);; sleep 300).

(** [monitor_flights], stopped after [n] passes. *)
Fixpoint monitor_passes (n : nat) : M unit :=
  match n with
  | O => mret tt
  | S n' => monitor_cycle;; monitor_passes n'
  end.

Definition monitor_flights (n : nat) : M unit :=
  logger_info StartingLoop;; monitor_passes n.
End engine.

(** ** Vocabulary of the statements *)

(** The fetch met a network failure or a timeout (an exception from
    [requests.get]) or a response whose status is not 200. *)
Definition source_unavailable (r : http_result) : Prop :=
  match r with
  | HttpFailure _ => True
  | HttpResponse status_code _ => status_code ≠ 200
  end.

(** A computation that only ever adds to the record of what happened. *)
Definition grows {A} (m : M A) : Prop :=
  ∀ st, ∃ evs, trace (m st).2 = evs ++ trace st.

(** What the loop did for one subscriber: [monitor_area] was run for it
    from some state [s] reached in this cycle, returned normally in [s'],
    and the cycle went on from there. *)
Definition processed (w : world) (st st' : bot) (chat : Z) (a : area) : Prop :=
  ∃ s s' before after,
    monitor_area w chat a s = (Ok tt, s') ∧
    trace s = before ++ trace st ∧
    trace st' = after ++ trace s'.

(** Whether the body of [format_flight_notification] goes through for a
    record and an area. *)
Definition formats (w : world) (flight_state : json) (a : area) : bool :=
  match format_fields w flight_state a with
  | Ok _ => true
  | Raise _ => false
  end.

(** The text [format_flight_notification] returns when it reads [time]
    from the clock. *)
Definition notification_text (w : world) (flight_state : json) (a : area) (time : Z)
  : message :=
  if formats w flight_state a then FlightNotification flight_state a time
  else FlightDetected time.

(** What [format_flight_notification] adds to the record of events. *)
Definition formatting_log (w : world) (flight_state : json) (a : area) : list event :=
  if formats w flight_state a then [] else [LogError ErrorFormattingNotification].


(** ** Environments, states and feed records used as examples *)

(** An environment in which everything works: the clock advances by a
    second at every reading, the feed answers 200 with no states, every
    message is delivered. *)
Definition calm_world : world :=
  World (λ t, seconds (1700000000 + Z.of_nat t))
        (λ t, 1700000000 + Z.of_nat t)
        (λ _ _, HttpResponse 200 (Ok (JObj [("states", JArr [])])))
        (λ _ _ _, Ok tt)
        (λ _, "?")
        (λ _ _, Ok tt).

(** The bot as [__init__] leaves it. *)
Definition initial_bot : bot := Bot ∅ [] ∅ [] 0.

(** A feed that times out. *)
Definition down_world : world :=
  World (clock calm_world) (current_timestamp calm_world)
        (λ _ _, HttpFailure RequestException)
        (send_message calm_world) (repr calm_world) (formatting calm_world).

(** A clock stopped at one day and five minutes. *)
Definition next_day_world : world :=
  World (λ _, minutes (24 * 60 + 5)) (current_timestamp calm_world)
        (requests_get calm_world) (send_message calm_world) (repr calm_world)
        (formatting calm_world).

(** A clock stopped at the given number of minutes. *)
Definition world_at_minute (n : Z) : world :=
  World (λ _, minutes n) (current_timestamp calm_world)
        (requests_get calm_world) (send_message calm_world) (repr calm_world)
        (formatting calm_world).

(** An aircraft over the equator, airborne, at longitude 10. *)
Definition equator_flight : json :=
  JArr [JStr "4b1814"; JStr "SWR12"; JStr "Switzerland"; JInt 1700000000; JInt 1700000000;
        JFloat (Finite 10); JFloat (Finite 0); JFloat (Finite 10000); JBool false;
        JFloat (Finite 230); JFloat (Finite 90); JFloat (Finite 0)].

(** A box around that position. *)
Definition equator_box : area :=
  Area (Finite 1) (Finite (-1)) (Finite 11) (Finite 9) 7.

(** The subscriber, area and feed record of the first scenario: a box
    over Jaipur and an aircraft inside it. *)
Definition jaipur_box : area :=
  Area (Finite (2695 # 100)) (Finite (2687 # 100))
       (Finite (7582 # 100)) (Finite (7574 # 100)) 7.

(** The aircraft, airborne at (26.90, 75.78). *)
Definition jaipur_flight : json :=
  JArr [JStr "800abc"; JStr "AIC101  "; JStr "India"; JInt 1700000000; JInt 1700000000;
        JFloat (Finite (7578 # 100)); JFloat (Finite (2690 # 100)); JFloat (Finite 3000);
        JBool false; JFloat (Finite 120); JFloat (Finite 45); JFloat (Finite 0)].

(** The same aircraft in a record cut after the ground flag. *)
Definition short_jaipur_flight : json :=
  JArr [JStr "800abc"; JStr "AIC101  "; JStr "India"; JInt 1700000000; JInt 1700000000;
        JFloat (Finite (7578 # 100)); JFloat (Finite (2690 # 100)); JFloat (Finite 3000);
        JBool false].

(** Three subscribers in one cycle: for the first the request times out,
    for the second the feed answers with [states] null, for the third it
    reports an aircraft inside the area. *)
Definition uneven_world : world :=
  World (clock calm_world) (current_timestamp calm_world)
        (λ _ a,
           if chat_id a =? 1 then HttpFailure RequestException
           else if chat_id a =? 2 then HttpResponse 200 (Ok (JObj [("states", JNull)]))
           else HttpResponse 200 (Ok (JObj [("states", JArr [jaipur_flight])])))
        (send_message calm_world) (repr calm_world) (formatting calm_world).

(** The bot with the three of them being monitored. *)
Definition three_subscribers : bot :=
  Bot ∅
      [(1, Area (Finite 1) (Finite (-1)) (Finite 11) (Finite 9) 1);
       (2, Area (Finite 1) (Finite (-1)) (Finite 11) (Finite 9) 2);
       (7, jaipur_box)]
      ∅ [] 0.

(** A subscriber who has set an area and started monitoring. *)
Definition monitoring_bot : bot :=
  (start_user_monitoring calm_world 7
     (save_user_area calm_world 7 (Finite 1) (Finite (-1)) (Finite 11) (Finite 9)
        initial_bot).2).2.

(** ** Vocabulary of the further statements *)

(** An event that is not a message to anyone outside [chats]. *)
Definition sends_only_to (chats : Z → Prop) (ev : event) : Prop :=
  match ev with
  | SendMessage chat _ => chats chat
  | _ => True
  end.

(** A computation of the cycle keeps to its own: what it adds to the
    record of events satisfies [P], it writes neither the table nor the
    dictionary of monitored areas, and the only cooldown records it may
    touch are those whose key satisfies [K]. *)
Definition confined (P : event → Prop) (K : string → Prop) {A} (m : M A) : Prop :=
  ∀ st,
    (∃ evs, trace (m st).2 = evs ++ trace st ∧ Forall P evs) ∧
    table (m st).2 = table st ∧
    monitoring_areas (m st).2 = monitoring_areas st ∧
    (∀ k, ¬ K k → notified_flights (m st).2 !! k = notified_flights st !! k).

(** The keys of the cooldown records of one subscriber. *)
Definition key_of_chat (w : world) (chat : Z) (k : string) : Prop :=
  ∃ icao24, k = notification_key w chat icao24.

(** One box inside another, bounds included. *)
Definition box_within (a b : area) : Prop :=
  float_le (south b) (south a) = true ∧ float_le (north a) (north b) = true ∧
  float_le (west b) (west a) = true ∧ float_le (east a) (east b) = true.

(** Whether a character occurs in a string. *)
Fixpoint has_char (c : ascii) (s : string) : bool :=
  match s with
  | EmptyString => false
  | String c' s' => bool_decide (c' = c) || has_char c s'
  end.

(** ** The command handlers *)

(** What a handler can raise: [ValueError], from [float] or from
    unpacking a list that has not four elements, or one of the exceptions
    of the engine. *)
Inductive failure :=
| ValueError
| EngineError (e : exn).

Inductive outcome (A : Type) :=
| Done (a : A)
| Failed (f : failure).
Arguments Done {A} a.
Arguments Failed {A} f.

(** The dictionary [calculate_area_info] returns. *)
Record area_info := AreaInfo {
  width_km : pyfloat;
  height_km : pyfloat;
  area_km2 : pyfloat
}.

(** The texts the handlers send, with the values they are filled with. *)
Inductive reply :=
| WelcomeText
| PrecisionHelperText
| HelpText
| SetupText
| InvalidCoordinates
| AreaSetSuccessfully (north south east west : pyfloat) (info : area_info)
| ErrorProcessingCoordinates
| NoAreaSet
| YourMonitoringArea (row : area_row) (info : area_info) (monitoring : bool)
| StatusReport (active_users total_areas : nat) (monitoring : bool) (time : Z).

(** The bot together with what its handlers have sent and logged, newest
    first. *)
Record service := Service {
  core : bot;
  replies : list (Z * reply);
  errors : list failure
}.

(** What the handlers use and the source does not define: the answer of
    [send_message] to each of their texts, [str.strip], [float] on a
    string ([None] for [ValueError]), and the floating-point arithmetic of
    [calculate_area_info] ([None] when [math.cos] raises [ValueError]). *)
Record runtime := Runtime {
  reply_result : nat → Z → reply → res unit;
  py_strip : string → string;
  py_float : string → option pyfloat;
  calculate_area_info : pyfloat → pyfloat → pyfloat → pyfloat → option area_info
}.

Definition H (A : Type) : Type := service → outcome A * service.

Module Svc.
Definition ret {A} (a : A) : H A := λ s, (Done a, s).

Definition bind {A B} (m : H A) (f : A → H B) : H B :=
  λ s, match m s with
       | (Done a, s') => f a s'
       | (Failed e, s') => (Failed e, s')
       end.

Definition lift {A} (r : outcome A) : H A := λ s, (r, s).

(** [try: m except Exception as e: h e] *)
Definition try_except {A} (m : H A) (h : failure → H A) : H A :=
  λ s, match m s with
       | (Done a, s') => (Done a, s')
       | (Failed e, s') => h e s'
       end.

Definition get : H service := λ s, (Done s, s).

(** A computation of the engine, run on the bot. *)
Definition run {A} (m : M A) : H A :=
  λ s, match m (core s) with
       | (Ok a, b) => (Done a, Service b (replies s) (errors s))
       | (Raise e, b) => (Failed (EngineError e), Service b (replies s) (errors s))
       end.

Definition record_reply (chat : Z) (r : reply) : H unit :=
  λ s, (Done tt, Service (core s) ((chat, r) :: replies s) (errors s)).

(** [self.logger.error] in [process_coordinates] *)
Definition log_error (f : failure) : H unit :=
  λ s, (Done tt, Service (core s) (replies s) (f :: errors s)).
End Svc.

#[global] Instance H_ret : MRet H := @Svc.ret.
#[global] Instance H_bind : MBind H := λ A B f m, Svc.bind m f.

(** [s.split(sep)] for a one-character separator. *)
Fixpoint py_split (sep : ascii) (s : string) : list string :=
  match s with
  | EmptyString => [EmptyString]
  | String c s' =>
      if bool_decide (c = sep) then EmptyString :: py_split sep s'
      else match py_split sep s' with
           | part :: parts => String c part :: parts
           | [] => [String c EmptyString]
           end
  end.

(** [s.replace(c, '')] for a one-character [c]. *)
Fixpoint py_remove (c : ascii) (s : string) : string :=
  match s with
  | EmptyString => EmptyString
  | String c' s' => if bool_decide (c' = c) then py_remove c s' else String c' (py_remove c s')
  end.

(** [COUNT( * )] over the rows with [is_active = 1]. *)
Definition count_active (t : gmap Z area_row) : nat :=
  size (filter (λ kv, is_active kv.2 = 1) t).

(** A message as telebot routes it: one of the commands, or anything
    else, with its text if it has one. *)
Inductive request :=
| CmdStart
| CmdHelp
| CmdSetArea
| CmdMyArea
| CmdStartMonitoring
| CmdStopMonitoring
| CmdPrecisionHelper
| CmdStatus
| Other (text : option string).

Section handlers.
Variable w : world.
Variable rt : runtime.

(** [self.bot.send_message] with one of the handlers' texts. *)
Definition send_reply (chat : Z) (r : reply) : H unit :=
  t ← Svc.run Bot.next_tick;
  Svc.record_reply chat r;;
  Svc.lift (match reply_result rt t chat r with
            | Ok u => Done u
            | Raise e => Failed (EngineError e)
            end).

(** [is_float] *)
Definition is_float (value : string) : bool :=
  match py_float rt value with
  | Some _ => true
  | None => false
  end.

(** [is_coordinate_message]; a message without text makes [strip] raise,
    and the bare [except] answers [False]. *)
Definition is_coordinate_message (text : option string) : bool :=
  match text with
  | None => false
  | Some s =>
      let coords := py_split "," (py_remove " " (py_strip rt s)) in
      (length coords =? 4)%nat && forallb is_float coords
  end.

(** [[float(x.strip()) for x in parts]] *)
Fixpoint floats_of (parts : list string) : outcome (list pyfloat) :=
  match parts with
  | [] => Done []
  | x :: parts' =>
      match py_float rt (py_strip rt x) with
      | None => Failed ValueError
      | Some f =>
          match floats_of parts' with
          | Done fs => Done (f :: fs)
          | Failed e => Failed e
          end
      end
  end.

(** The first statement of [process_coordinates]. *)
Definition read_coordinates (text : option string) : outcome (list pyfloat) :=
  match text with
  | None => Failed (EngineError AttributeError)
  | Some s => floats_of (py_split "," (py_strip rt s))
  end.

(** [calculate_area_info], which raises when [math.cos] does. *)
Definition area_info_of (north south east west : pyfloat) : H area_info :=
  Svc.lift (match calculate_area_info rt north south east west with
            | Some info => Done info
            | None => Failed ValueError
            end).

(** [process_coordinates] *)
Definition process_coordinates (chat : Z) (text : option string) : H unit :=
  Svc.try_except
    (coords ← Svc.lift (read_coordinates text);
     match coords with
     | [north_lat; south_lat; east_lon; west_lon] =>
         if negb (validate_coordinates north_lat south_lat east_lon west_lon)
         then send_reply chat InvalidCoordinates
         else
           Svc.run (save_user_area w chat north_lat south_lat east_lon west_lon);;
           info ← area_info_of north_lat south_lat east_lon west_lon;
           send_reply chat (AreaSetSuccessfully north_lat south_lat east_lon west_lon info)
     | _ => Svc.lift (Failed ValueError)
     end)
    (λ e, Svc.log_error e;; send_reply chat ErrorProcessingCoordinates).

(** [show_current_area] *)
Definition show_current_area (chat : Z) : H unit :=
  s ← Svc.get;
  match table (core s) !! chat with
  | None => send_reply chat NoAreaSet
  | Some row =>
      info ← area_info_of (north_lat row) (south_lat row) (east_lon row) (west_lon row);
      send_reply chat
        (YourMonitoringArea row info (Dict.mem chat (monitoring_areas (core s))))
  end.

(** [show_status] *)
Definition show_status (chat : Z) : H unit :=
  s ← Svc.get;
  let active_users := length (monitoring_areas (core s)) in
  let total_areas := count_active (table (core s)) in
  time ← Svc.run (now w);
  send_reply chat
    (StatusReport active_users total_areas (Dict.mem chat (monitoring_areas (core s))) time).

(** The handlers [setup_commands] registers, by the message they get. *)
Definition handle (chat : Z) (r : request) : H unit :=
  match r with
  | CmdStart => send_reply chat WelcomeText
  | CmdHelp => send_reply chat HelpText
  | CmdSetArea => send_reply chat SetupText
  | CmdMyArea => show_current_area chat
  | CmdStartMonitoring => Svc.run (start_user_monitoring w chat)
  | CmdStopMonitoring => Svc.run (stop_user_monitoring w chat)
  | CmdPrecisionHelper => send_reply chat PrecisionHelperText
  | CmdStatus => show_status chat
  | Other text =>
      if is_coordinate_message text then process_coordinates chat text else mret tt
  end.

(** The states the bot can be in: the one [__init__] leaves, and those
    reached from it by handling a message or by a pass of the monitoring
    loop, whatever the outcome. *)
Inductive reachable : service → Prop :=
| reachable_init : reachable (Service initial_bot [] [])
| reachable_handle s chat r : reachable s → reachable (handle chat r s).2
| reachable_cycle s : reachable s → reachable (Svc.run (monitor_cycle w) s).2.
End handlers.

(** A stored row as the handlers leave it: a box that passes validation,
    with the active flag set. *)
Definition valid_row (row : area_row) : Prop :=
  validate_coordinates (north_lat row) (south_lat row) (east_lon row) (west_lon row) = true
  ∧ is_active row = 1.

(** The bot's areas in order: every stored row is valid; no subscriber is
    monitored twice; and each monitored area is filed under the
    subscriber it names, is a valid box and belongs to a subscriber with a
    stored row. *)
Definition well_formed (b : bot) : Prop :=
  (∀ chat row, table b !! chat = Some row → valid_row row) ∧
  NoDup (monitoring_areas b).*1 ∧
  (∀ chat a, (chat, a) ∈ monitoring_areas b →
     chat_id a = chat ∧
     validate_coordinates (north a) (south a) (east a) (west a) = true ∧
     is_Some (table b !! chat)).

(** A runtime for the examples: every reply is delivered, [strip] leaves
    the text alone, and [float] knows four numerals. *)
Definition plain_runtime : runtime :=
  Runtime (λ _ _ _, Ok tt) (λ s, s)
          (λ s, if bool_decide (s = "26.95") then Some (Finite (2695 # 100))
                else if bool_decide (s = "26.87") then Some (Finite (2687 # 100))
                else if bool_decide (s = "75.82") then Some (Finite (7582 # 100))
                else if bool_decide (s = "75.74") then Some (Finite (7574 # 100))
                else None)
          (λ _ _ _ _, Some (AreaInfo (Finite 8) (Finite 9) (Finite 72))).

(** A handler that writes neither the table nor the dictionary of
    monitored areas. *)
Definition keeps_areas {A} (m : H A) : Prop :=
  ∀ s, table (core (m s).2) = table (core s) ∧
       monitoring_areas (core (m s).2) = monitoring_areas (core s).

(** A runtime in which no reply gets through. *)
Definition mute_runtime : runtime :=
  Runtime (λ _ _ _, Raise ApiException) (py_strip plain_runtime)
          (py_float plain_runtime) (calculate_area_info plain_runtime).

(** How often a character occurs in a string. *)
Fixpoint count_char (c : ascii) (s : string) : nat :=
  match s with
  | EmptyString => 0
  | String c' s' => (if bool_decide (c' = c) then 1 else 0) + count_char c s'
  end.

(** The requests that only ask for a text. *)
Definition asks_only (r : request) : Prop :=
  match r with
  | CmdStart | CmdHelp | CmdSetArea | CmdMyArea | CmdPrecisionHelper | CmdStatus => True
  | CmdStartMonitoring | CmdStopMonitoring | Other _ => False
  end.

(** * Properties *)

Ltac unfold_res := unfold mbind, res_bind, Res.bind, Res.try_except in *.

Ltac unfold_M :=
  unfold mbind, mret, M_bind, M_ret, Bot.bind, Bot.ret, Bot.try_except, Bot.lift,
    Bot.raise, Bot.get, Bot.emit, Bot.next_tick, Bot.set_table,
    Bot.set_monitoring_areas, Bot.set_notified_flights in *.

(** ** Floats and their order *)

Lemma float_le_Finite a b : float_le (Finite a) (Finite b) = true ↔ (a <= b)%Q.
Proof. apply Qle_bool_iff. Qed.

Lemma float_le_Finite_false a b : float_le (Finite a) (Finite b) = false ↔ (b < a)%Q.
Proof.
  simpl. split.
  - intros H. apply Qnot_le_lt. intros Hle. apply Qle_bool_iff in Hle. congruence.
  - intros H. destruct (Qle_bool a b) eqn:E; [|done].
    apply Qle_bool_iff in E. exfalso. exact (Qlt_not_le _ _ H E).
Qed.

(** A float lies between two finite bounds exactly when it is finite and
    its value does. *)
Lemma float_between lo hi x :
  float_le (Finite lo) x && float_le x (Finite hi) = true ↔
  ∃ q, x = Finite q ∧ (lo <= q <= hi)%Q.
Proof.
  rewrite andb_true_iff. split.
  - intros [H1 H2]. destruct x as [q| | |]; try discriminate.
    exists q. split; [done|]. split; by apply float_le_Finite.
  - intros (q & -> & H1 & H2). split; by apply float_le_Finite.
Qed.

(** ** Validation of a bounding box *)

(** C8: [validate_coordinates] accepts a quadruple exactly when both
    latitudes are (finite and) in [-90, 90], both longitudes in
    [-180, 180], north is above south and west is below east. *)
Theorem validate_coordinates_iff (n s e w : pyfloat) :
  validate_coordinates n s e w = true ↔
  ∃ qn qs qe qw : Q,
    n = Finite qn ∧ s = Finite qs ∧ e = Finite qe ∧ w = Finite qw ∧
    (-90 <= qn <= 90)%Q ∧ (-90 <= qs <= 90)%Q ∧
    (-180 <= qe <= 180)%Q ∧ (-180 <= qw <= 180)%Q ∧
    (qs < qn)%Q ∧ (qw < qe)%Q.
Proof.
  unfold validate_coordinates, float_ge, float_of_Z.
  destruct (float_le (Finite (inject_Z (-90))) n && float_le n (Finite (inject_Z 90))) eqn:En.
  2:{ simpl. split; [done|]. intros (qn & qs & qe & qw & -> & _ & _ & _ & Hn & _).
      assert (float_le (Finite (inject_Z (-90))) (Finite qn)
              && float_le (Finite qn) (Finite (inject_Z 90)) = true) as E'
        by (apply float_between; eauto).
      congruence. }
  destruct (float_le (Finite (inject_Z (-90))) s && float_le s (Finite (inject_Z 90))) eqn:Es.
  2:{ simpl. split; [done|]. intros (qn & qs & qe & qw & _ & -> & _ & _ & _ & Hs & _).
      assert (float_le (Finite (inject_Z (-90))) (Finite qs)
              && float_le (Finite qs) (Finite (inject_Z 90)) = true) as E'
        by (apply float_between; eauto).
      congruence. }
  destruct (float_le (Finite (inject_Z (-180))) e && float_le e (Finite (inject_Z 180))) eqn:Ee.
  2:{ simpl. split; [done|]. intros (qn & qs & qe & qw & _ & _ & -> & _ & _ & _ & He & _).
      assert (float_le (Finite (inject_Z (-180))) (Finite qe)
              && float_le (Finite qe) (Finite (inject_Z 180)) = true) as E'
        by (apply float_between; eauto).
      congruence. }
  destruct (float_le (Finite (inject_Z (-180))) w && float_le w (Finite (inject_Z 180))) eqn:Ew.
  2:{ simpl. split; [done|]. intros (qn & qs & qe & qw & _ & _ & _ & -> & _ & _ & _ & Hw & _).
      assert (float_le (Finite (inject_Z (-180))) (Finite qw)
              && float_le (Finite qw) (Finite (inject_Z 180)) = true) as E'
        by (apply float_between; eauto).
      congruence. }
  apply float_between in En as (qn & -> & Hn).
  apply float_between in Es as (qs & -> & Hs).
  apply float_between in Ee as (qe & -> & He).
  apply float_between in Ew as (qw & -> & Hw).
  cbn [negb andb].
  destruct (float_le (Finite qn) (Finite qs)) eqn:Ens.
  { split; [done|]. intros (? & ? & ? & ? & [= <-] & [= <-] & _ & _ & _ & _ & _ & _ & Hlt & _).
    apply float_le_Finite in Ens. exfalso. exact (Qlt_not_le _ _ Hlt Ens). }
  destruct (float_le (Finite qe) (Finite qw)) eqn:Eew.
  { split; [done|]. intros (? & ? & ? & ? & _ & _ & [= <-] & [= <-] & _ & _ & _ & _ & _ & Hlt).
    apply float_le_Finite in Eew. exfalso. exact (Qlt_not_le _ _ Hlt Eew). }
  apply float_le_Finite_false in Ens, Eew.
  split; [|done]. intros _. exists qn, qs, qe, qw. repeat split; tauto.
Qed.

(** ** The containment test *)

Lemma chained_le_bool lo v hi x :
  as_number v = Ok x → chained_le lo v hi = Ok (JBool (float_le lo x && float_le x hi)).
Proof.
  intros E. unfold chained_le. rewrite E. unfold_res.
  by destruct (float_le lo x).
Qed.

Lemma chained_le_cases lo v hi :
  (∃ b, chained_le lo v hi = Ok (JBool b)) ∨ chained_le lo v hi = Raise TypeError.
Proof.
  destruct (as_number v) as [x|e] eqn:E.
  - left. eexists. by apply chained_le_bool.
  - right. unfold chained_le. rewrite E. unfold_res.
    by destruct v; try discriminate; injection E as <-.
Qed.

(** Whatever the body does, what comes out is [True] or [False]. *)
Lemma is_flight_in_area_bool (flight_state : json) (a : area) :
  ∃ b, is_flight_in_area flight_state a = Ok (JBool b).
Proof.
  unfold is_flight_in_area, is_flight_in_area_body.
  destruct (py_len flight_state) as [n|]; unfold_res; [|by eauto].
  destruct (n <? 7)%nat; [by eauto|].
  destruct (py_getitem flight_state 5) as [lon|]; [|by eauto].
  destruct (py_getitem flight_state 6) as [lat|]; [|by eauto].
  destruct (py_getitem flight_state 8) as [gnd|]; [|by eauto].
  destruct (negb (truthy lon) || negb (truthy lat) || truthy gnd); [by eauto|].
  destruct (chained_le_cases (south a) lat (north a)) as [[b ->]| ->]; [|by eauto].
  unfold py_and. simpl. destruct b; [|by eauto].
  destruct (chained_le_cases (west a) lon (east a)) as [[b ->]| ->]; by eauto.
Qed.

(** A list too short to hold index 8 is refused: below 7 elements by the
    length test, at 7 or 8 by the [IndexError] that [flight_state[8]]
    raises. *)
Lemma is_flight_in_area_short (l : list json) (a : area) :
  (length l < 9)%nat → is_flight_in_area (JArr l) a = Ok (JBool false).
Proof.
  intros Hlen. unfold is_flight_in_area, is_flight_in_area_body. simpl. unfold_res.
  destruct (length l <? 7)%nat; [done|].
  destruct (l !! 5%nat); [|done]. destruct (l !! 6%nat); [|done].
  by rewrite (lookup_ge_None_2 l 8) by lia.
Qed.

(** A record whose longitude or latitude is [null] is refused. *)
Lemma is_flight_in_area_null (l : list json) (a : area) :
  l !! 5%nat = Some JNull ∨ l !! 6%nat = Some JNull →
  is_flight_in_area (JArr l) a = Ok (JBool false).
Proof.
  intros H. unfold is_flight_in_area, is_flight_in_area_body. simpl. unfold_res.
  destruct (length l <? 7)%nat; [done|].
  destruct (l !! 5%nat) as [lon|] eqn:E5; [|done].
  destruct (l !! 6%nat) as [lat|] eqn:E6; [|done].
  destruct (l !! 8%nat) as [gnd|]; [|done].
  destruct H as [[= ->]|[= ->]]; simpl; [done|].
  by rewrite orb_true_r.
Qed.

(** Away from zero the test is the inclusive box test: for a record with
    numeric, non-zero longitude and latitude and a falsy ground flag, the
    result is the conjunction of the four comparisons. *)
Lemma is_flight_in_area_airborne (l : list json) (a : area) lon lat gnd x y :
  l !! 5%nat = Some lon → l !! 6%nat = Some lat → l !! 8%nat = Some gnd →
  as_number lon = Ok x → as_number lat = Ok y →
  truthy lon = true → truthy lat = true → truthy gnd = false →
  is_flight_in_area (JArr l) a =
    Ok (JBool (float_le (south a) y && float_le y (north a)
               && (float_le (west a) x && float_le x (east a)))).
Proof.
  intros E5 E6 E8 Ex Ey Tx Ty Tg.
  unfold is_flight_in_area, is_flight_in_area_body. simpl.
  assert (8 < length l)%nat as Hlen by (by eapply lookup_lt_Some).
  unfold_res. replace (length l <? 7)%nat with false by (symmetry; apply Nat.ltb_ge; lia).
  rewrite E5, E6, E8, Tx, Ty, Tg. simpl.
  rewrite (chained_le_bool _ _ _ _ Ey), (chained_le_bool _ _ _ _ Ex).
  unfold py_and. simpl.
  by destruct (float_le (south a) y && float_le y (north a)).
Qed.

(** C10: on every list the containment test returns a boolean, without
    raising; the boolean is [False] for a list of fewer than 9 elements
    (7 and 8 included) and for one whose longitude or latitude is null. *)
Theorem is_flight_in_area_total (l : list json) (a : area) :
  ∃ b : bool,
    is_flight_in_area (JArr l) a = Ok (JBool b) ∧
    ((length l < 9)%nat ∨ l !! 5%nat = Some JNull ∨ l !! 6%nat = Some JNull → b = false).
Proof.
  destruct (is_flight_in_area_bool (JArr l) a) as [b Hb].
  exists b. split; [done|]. intros [H|H].
  - rewrite is_flight_in_area_short in Hb by done. by injection Hb as <-.
  - rewrite is_flight_in_area_null in Hb by done. by injection Hb as <-.
Qed.

(** A record of length 8: it passes the length test and is refused. *)
Lemma is_flight_in_area_total_witness :
  is_flight_in_area
    (JArr [JStr "4b1814"; JStr "SWR12"; JStr "Switzerland"; JInt 1; JInt 1;
           JFloat (Finite (7578 # 100)); JFloat (Finite (269 # 10)); JInt 900])
    (Area (Finite (2695 # 100)) (Finite (2687 # 100))
          (Finite (7582 # 100)) (Finite (7574 # 100)) 7)
  = Ok (JBool false).
Proof.
  destruct (is_flight_in_area_total
    [JStr "4b1814"; JStr "SWR12"; JStr "Switzerland"; JInt 1; JInt 1;
     JFloat (Finite (7578 # 100)); JFloat (Finite (269 # 10)); JInt 900]
    (Area (Finite (2695 # 100)) (Finite (2687 # 100))
          (Finite (7582 # 100)) (Finite (7574 # 100)) 7)) as [b [Hb Hfalse]].
  rewrite Hb. rewrite Hfalse; [reflexivity|]. left. simpl. lia.
Defined.

(** C1: the containment test at a latitude of exactly zero. The position
    is present, the aircraft is airborne and the position satisfies all
    four inclusive comparisons of the box, yet the test answers [False]:
    [not latitude] holds for [0.0] as it does for [None]. *)
Theorem is_flight_in_area_zero_latitude :
  py_getitem equator_flight 5 = Ok (JFloat (Finite 10)) ∧
  py_getitem equator_flight 6 = Ok (JFloat (Finite 0)) ∧
  py_getitem equator_flight 8 = Ok (JBool false) ∧
  float_le (south equator_box) (Finite 0) && float_le (Finite 0) (north equator_box)
    && (float_le (west equator_box) (Finite 10) && float_le (Finite 10) (east equator_box))
    = true ∧
  is_flight_in_area equator_flight equator_box = Ok (JBool false).
Proof. repeat split; vm_compute; reflexivity. Qed.

(** ** The cooldown *)

Lemma td_seconds_range delta : 0 <= td_seconds delta < 86400.
Proof.
  unfold td_seconds.
  pose proof (Z.mod_pos_bound delta 86400000000 ltac:(lia)) as H.
  split; [apply Z.div_pos; lia|].
  apply Z.div_lt_upper_bound; lia.
Qed.

(** Within a day, [.seconds] is the whole number of elapsed seconds. *)
Lemma td_seconds_within_day delta :
  0 <= delta < seconds 86400 → td_seconds delta = delta `div` 1000000.
Proof.
  unfold td_seconds, seconds. intros H. by rewrite Z.mod_small by lia.
Qed.

(** [.seconds] forgets whole days. *)
Lemma td_seconds_add_day delta : td_seconds (delta + seconds 86400) = td_seconds delta.
Proof.
  unfold td_seconds, seconds.
  replace (delta + 86400 * 1000000) with (delta + 1 * 86400000000) by lia.
  by rewrite Z.mod_add by lia.
Qed.


(** During the first day after a record, the check is the 30-minute
    window. *)
Lemma in_cooldown_within_day (notified : gmap string Z) key t0 now :
  0 <= now - t0 < seconds 86400 →
  in_cooldown (<[key := t0]> notified) key now = bool_decide (now - t0 < minutes 30).
Proof.
  intros H. unfold in_cooldown. rewrite lookup_insert_eq.
  rewrite td_seconds_within_day by done.
  unfold minutes, seconds in *.
  pose proof (Z.div_mod (now - t0) 1000000 ltac:(lia)) as Hdm.
  pose proof (Z.mod_pos_bound (now - t0) 1000000 ltac:(lia)) as Hm.
  destruct (Z.ltb_spec ((now - t0) `div` 1000000) 1800) as [Hlt|Hge]; symmetry.
  - apply bool_decide_eq_true. lia.
  - apply bool_decide_eq_false. lia.
Qed.

(** C2: the cooldown check one day and five minutes after the record.
    More than 30 minutes have passed, and the check still suppresses:
    [.seconds] is the remainder within the day, 300 here. *)
Theorem in_cooldown_after_a_day (notified : gmap string Z) (key : string) (t0 : Z) :
  minutes 30 <= (t0 + minutes (24 * 60 + 5)) - t0 ∧
  in_cooldown (<[key := t0]> notified) key (t0 + minutes (24 * 60 + 5)) = true.
Proof.
  split; [unfold minutes, seconds; lia|].
  unfold in_cooldown. rewrite lookup_insert_eq.
  replace (t0 + minutes (24 * 60 + 5) - t0) with (minutes (24 * 60 + 5)) by lia.
  reflexivity.
Qed.

(** ** The sweep *)

Lemma cleanup_old_notifications_lookup (notified : gmap string Z) now key t :
  cleanup_old_notifications notified now !! key = Some t ↔
  notified !! key = Some t ∧ td_seconds (now - t) < 3600.
Proof. unfold cleanup_old_notifications. by rewrite map_lookup_filter_Some. Qed.

(** A record younger than 60 minutes survives the sweep unchanged. *)
Lemma cleanup_keeps_young (notified : gmap string Z) now key t :
  notified !! key = Some t → 0 <= now - t < minutes 60 →
  cleanup_old_notifications notified now !! key = Some t.
Proof.
  intros Hk Hage. apply cleanup_old_notifications_lookup. split; [done|].
  unfold minutes, seconds in Hage.
  rewrite td_seconds_within_day by (unfold seconds; lia).
  apply Z.div_lt_upper_bound; lia.
Qed.

(** A record between 60 minutes and a day old is removed. *)
Lemma cleanup_drops_old (notified : gmap string Z) now key t :
  notified !! key = Some t → minutes 60 <= now - t < seconds 86400 →
  cleanup_old_notifications notified now !! key = None.
Proof.
  intros Hk Hage. apply eq_None_not_Some. intros [t' Ht'].
  apply cleanup_old_notifications_lookup in Ht' as [Hk' Hlt].
  assert (t' = t) as -> by congruence.
  rewrite td_seconds_within_day in Hlt by (unfold minutes, seconds in *; lia).
  unfold minutes, seconds in Hage.
  assert (3600 <= (now - t) `div` 1000000); [|lia].
  apply Z.div_le_lower_bound; lia.
Qed.

(** C3: the sweep one day and ten minutes after a record was made. The
    record is more than 60 minutes old and it remains in the map. *)
Theorem cleanup_keeps_day_old_record (notified : gmap string Z) (key : string) (t0 : Z) :
  minutes 60 <= (t0 + minutes (24 * 60 + 10)) - t0 ∧
  cleanup_old_notifications (<[key := t0]> notified) (t0 + minutes (24 * 60 + 10)) !! key
    = Some t0.
Proof.
  split; [unfold minutes, seconds; lia|].
  apply cleanup_old_notifications_lookup. rewrite lookup_insert_eq. split; [done|].
  replace (t0 + minutes (24 * 60 + 10) - t0) with (minutes (24 * 60 + 10)) by lia.
  reflexivity.
Qed.

(** ** The flight source *)

(** C9: when the request fails or is answered with a status other than
    200, [get_flights_in_area] returns the empty list without raising;
    all it does is the request and one error line in the log: nothing is
    sent to anyone, and the bot's dictionaries and table are as before. *)
Theorem get_flights_in_area_unavailable (w : world) (a : area) (st : bot) :
  source_unavailable (requests_get w (tick st) a) →
  ∃ line : log_line,
    get_flights_in_area w a st =
      (Ok (JArr []),
       Bot (table st) (monitoring_areas st) (notified_flights st)
           (LogError line :: HttpGet a :: trace st) (S (tick st))).
Proof.
  intros H. unfold get_flights_in_area, logger_error. unfold_M. simpl.
  destruct (requests_get w (tick st) a) as [e|status_code body]; simpl in *.
  - by exists (ErrorFetchingFlights e).
  - exists (ApiError status_code).
    destruct (Z.eqb_spec status_code 200) as [->|_]; [done|]. reflexivity.
Qed.

Lemma get_flights_in_area_unavailable_witness :
  ∃ line : log_line,
    get_flights_in_area down_world equator_box initial_bot =
      (Ok (JArr []), Bot ∅ [] ∅ [LogError line; HttpGet equator_box] 1).
Proof.
  apply (get_flights_in_area_unavailable down_world equator_box initial_bot).
  simpl. exact I.
Defined.

(** ** The area store *)

(** C7, as the code has it: [save_user_area] returns normally and leaves
    for the subscriber a row with the given box, no name, the active flag
    set and [created_at] taken from the clock at this very call, whether
    or not a row existed; the rows of other subscribers are untouched. *)
Theorem save_user_area_replaces (w : world) (chat : Z) (n s e x : pyfloat) (st : bot) :
  ∃ st', save_user_area w chat n s e x st = (Ok tt, st') ∧
    table st' !! chat = Some (AreaRow None n s e x 1 (current_timestamp w (tick st))) ∧
    (∀ other, other ≠ chat → table st' !! other = table st !! other) ∧
    monitoring_areas st' = monitoring_areas st ∧
    notified_flights st' = notified_flights st.
Proof.
  unfold save_user_area. unfold_M. simpl. eexists. split; [reflexivity|]. simpl.
  split; [by rewrite lookup_insert_eq|].
  split; [|done]. intros other Hne. by rewrite lookup_insert_ne.
Qed.

(** C7, as stated, fails: a second [save_user_area] for the same
    subscriber, made one clock reading later, changes [created_at]. *)
Lemma save_user_area_refreshes_created_at :
  let st1 := (save_user_area calm_world 7 (Finite 1) (Finite (-1)) (Finite 11) (Finite 9)
                initial_bot).2 in
  let st2 := (save_user_area calm_world 7 (Finite 1) (Finite (-1)) (Finite 11) (Finite 9)
                st1).2 in
  created_at <$> table st1 !! 7 = Some 1700000000 ∧
  created_at <$> table st2 !! 7 = Some 1700000001 ∧
  created_at <$> table st2 !! 7 ≠ created_at <$> table st1 !! 7.
Proof. vm_compute. repeat split; congruence. Qed.

Module DictFacts.
Section facts.
Context {V : Type}.
Implicit Types (d : list (Z * V)) (k : Z) (v : V).

Lemma get_set_eq k v d : Dict.get k (Dict.set k v d) = Some v.
Proof.
  unfold Dict.get. induction d as [|[k' v'] d IH]; simpl.
  - by rewrite bool_decide_eq_true_2.
  - destruct (bool_decide (k' = k)) eqn:E; simpl.
    + by rewrite bool_decide_eq_true_2.
    + by rewrite E.
Qed.

Lemma get_set_ne k k' v d : k ≠ k' → Dict.get k' (Dict.set k v d) = Dict.get k' d.
Proof.
  intros Hne. unfold Dict.get. induction d as [|[k0 v0] d IH]; simpl.
  - by rewrite bool_decide_eq_false_2.
  - destruct (bool_decide (k0 = k)) eqn:E; simpl.
    + apply bool_decide_eq_true in E as ->.
      by rewrite !bool_decide_eq_false_2.
    + by destruct (bool_decide (k0 = k')).
Qed.

Lemma get_del_eq k d : Dict.get k (Dict.del k d) = None.
Proof.
  unfold Dict.get, Dict.del. induction d as [|[k' v'] d IH]; [done|].
  rewrite filter_cons. simpl. case_decide as Hd; simpl.
  - by rewrite bool_decide_eq_false_2.
  - done.
Qed.

Lemma get_del_ne k k' d : k ≠ k' → Dict.get k' (Dict.del k d) = Dict.get k' d.
Proof.
  intros Hne. unfold Dict.get, Dict.del. induction d as [|[k0 v0] d IH]; [done|].
  rewrite filter_cons. simpl. case_decide as Hd; simpl.
  - by destruct (bool_decide (k0 = k')).
  - subst k0. by rewrite bool_decide_eq_false_2.
Qed.
End facts.
End DictFacts.

(** C6, as the code has it: neither request writes to the table, so the
    stored area and its active flag are what they were and no row goes
    away; nor do they touch the cooldown records. Stopping takes the
    subscriber out of the in-memory dictionary the cycle iterates over and
    leaves every other subscriber's entry as it was; starting puts the
    stored box under the subscriber's key when the table has an active row
    for the subscriber, again leaving every other entry as it was, and
    leaves the dictionary unchanged otherwise. This holds whether or not
    the reply is delivered. *)
Theorem start_stop_keep_table (w : world) (chat : Z) (st : bot) :
  let stopped := (stop_user_monitoring w chat st).2 in
  let started := (start_user_monitoring w chat st).2 in
  table stopped = table st ∧
  notified_flights stopped = notified_flights st ∧
  (∀ k, Dict.get k (monitoring_areas stopped) =
        if bool_decide (k = chat) then None else Dict.get k (monitoring_areas st)) ∧
  table started = table st ∧
  notified_flights started = notified_flights st ∧
  match select_active_area chat (table st) with
  | Some row =>
      ∀ k, Dict.get k (monitoring_areas started) =
           if bool_decide (k = chat)
           then Some (Area (north_lat row) (south_lat row) (east_lon row) (west_lon row) chat)
           else Dict.get k (monitoring_areas st)
  | None => monitoring_areas started = monitoring_areas st
  end.
Proof.
  simpl. repeat split.
  - unfold stop_user_monitoring, bot_send_message, logger_info. unfold_M. simpl.
    by repeat case_match.
  - unfold stop_user_monitoring, bot_send_message, logger_info. unfold_M. simpl.
    by repeat case_match.
  - intros k.
    unfold stop_user_monitoring, bot_send_message, logger_info. unfold_M. simpl.
    destruct (Dict.mem chat (monitoring_areas st)) eqn:E; simpl.
    + assert (Dict.get k (Dict.del chat (monitoring_areas st)) =
              if bool_decide (k = chat) then None else Dict.get k (monitoring_areas st))
        as Hdel.
      { case_bool_decide as Hk; [subst k; apply DictFacts.get_del_eq|].
        apply DictFacts.get_del_ne. congruence. }
      by destruct (send_message w (tick st) chat MonitoringStopped).
    + unfold Dict.mem in E. apply bool_decide_eq_false in E.
      case_bool_decide as Hk; [|done]. subst k. by apply eq_None_not_Some.
  - unfold start_user_monitoring, bot_send_message, logger_info. unfold_M. simpl.
    by repeat case_match.
  - unfold start_user_monitoring, bot_send_message, logger_info. unfold_M. simpl.
    by repeat case_match.
  - unfold start_user_monitoring, bot_send_message, logger_info. unfold_M. simpl.
    destruct (select_active_area chat (table st)) as [row|]; simpl; [|done].
    intros k.
    assert (Dict.get k (Dict.set chat
              (Area (north_lat row) (south_lat row) (east_lon row) (west_lon row) chat)
              (monitoring_areas st)) =
            if bool_decide (k = chat)
            then Some (Area (north_lat row) (south_lat row) (east_lon row) (west_lon row) chat)
            else Dict.get k (monitoring_areas st)) as Hset.
    { case_bool_decide as Hk; [subst k; apply DictFacts.get_set_eq|].
      apply DictFacts.get_set_ne. congruence. }
    by destruct (send_message w (tick st) chat _).
Qed.

(** C6, as stated, fails: after a stop request the stored active flag of
    the subscriber is still 1, not 0. *)
Lemma stop_user_monitoring_keeps_flag :
  is_active <$> table monitoring_bot !! 7 = Some 1 ∧
  Dict.mem 7 (monitoring_areas monitoring_bot) = true ∧
  is_active <$> table (stop_user_monitoring calm_world 7 monitoring_bot).2 !! 7 = Some 1 ∧
  ¬ (∃ row, table (stop_user_monitoring calm_world 7 monitoring_bot).2 !! 7 = Some row
            ∧ is_active row = 0).
Proof.
  split; [by vm_compute|]. split; [by vm_compute|].
  assert (is_active <$> table (stop_user_monitoring calm_world 7 monitoring_bot).2 !! 7
          = Some 1) as H by (by vm_compute).
  split; [done|]. intros (row & Hrow & Hflag). rewrite Hrow in H. simpl in H. congruence.
Qed.

(** ** One flight inside the area *)

Lemma handle_flight_notifies
    (w : world) (chat : Z) (a : area) (flight_state first : json) (st : bot) :
  is_flight_in_area flight_state a = Ok (JBool true) →
  py_getitem flight_state 0 = Ok first →
  let icao24 := py_or first (JStr "unknown") in
  let key := notification_key w chat icao24 in
  in_cooldown (notified_flights st) key (clock w (tick st)) = false →
  let t := if bool_decide (is_Some (notified_flights st !! key))
           then S (tick st) else tick st in
  let message := notification_text w flight_state a (clock w t) in
  ∃ st', handle_flight w chat a flight_state st = (Ok tt, st') ∧
    table st' = table st ∧ monitoring_areas st' = monitoring_areas st ∧
    match send_message w (S t) chat message with
    | Ok _ =>
        notified_flights st' = <[key := clock w (S (S t))]> (notified_flights st) ∧
        trace st' = LogInfo (SentNotification chat (py_format w icao24))
                    :: SendMessage chat message
                    :: formatting_log w flight_state a ++ trace st
    | Raise e =>
        notified_flights st' = notified_flights st ∧
        trace st' = LogError (FailedToSend chat e)
                    :: SendMessage chat message
                    :: formatting_log w flight_state a ++ trace st
    end.
Proof.
  intros Hin Hfirst. cbv zeta. intros Hcool.
  unfold handle_flight, format_flight_notification, bot_send_message, now,
    logger_info, logger_error, notification_text, formatting_log, formats.
  rewrite Hin, Hfirst. unfold_M. simpl.
  destruct (bool_decide (is_Some (notified_flights st !! _))) eqn:Ekey; simpl.
  - rewrite Hcool. simpl.
    destruct (format_fields w flight_state a) as [[]|e0]; simpl;
      destruct (send_message w (S (S (tick st))) chat _) as [[]|e]; simpl; eauto 10.
  - destruct (format_fields w flight_state a) as [[]|e0]; simpl;
      destruct (send_message w (S (tick st)) chat _) as [[]|e]; simpl; eauto 10.
Qed.

(** C4: for a flight that is inside the area and clears the cooldown
    check, [handle_flight] returns normally whatever the formatting and
    the sink do. One message is handed to the sink: the notification, or
    the short text after an error line when the formatting failed. The
    cooldown record follows the sink: when [send_message] succeeds the key
    is set to the clock reading that follows and the delivery is logged;
    when it raises, the cooldown dictionary is left as it was and the
    failure is logged. *)
Theorem handle_flight_records_iff_delivered
    (w : world) (chat : Z) (a : area) (flight_state first : json) (st : bot) :
  is_flight_in_area flight_state a = Ok (JBool true) →
  py_getitem flight_state 0 = Ok first →
  let icao24 := py_or first (JStr "unknown") in
  let key := notification_key w chat icao24 in
  in_cooldown (notified_flights st) key (clock w (tick st)) = false →
  let t := if bool_decide (is_Some (notified_flights st !! key))
           then S (tick st) else tick st in
  let message := notification_text w flight_state a (clock w t) in
  ∃ st', handle_flight w chat a flight_state st = (Ok tt, st') ∧
    table st' = table st ∧ monitoring_areas st' = monitoring_areas st ∧
    match send_message w (S t) chat message with
    | Ok _ =>
        notified_flights st' = <[key := clock w (S (S t))]> (notified_flights st) ∧
        trace st' = LogInfo (SentNotification chat (py_format w icao24))
                    :: SendMessage chat message
                    :: formatting_log w flight_state a ++ trace st
    | Raise e =>
        notified_flights st' = notified_flights st ∧
        trace st' = LogError (FailedToSend chat e)
                    :: SendMessage chat message
                    :: formatting_log w flight_state a ++ trace st
    end.
Proof. exact (handle_flight_notifies w chat a flight_state first st). Qed.

(** A record of nine fields: inside the box, but too short for the text,
    so the error line and the short text it is. *)
Lemma handle_flight_records_iff_delivered_witness :
  ∃ st', handle_flight calm_world 7 jaipur_box short_jaipur_flight initial_bot
           = (Ok tt, st') ∧
         notified_flights st' = {[ "7_800abc" := seconds 1700000002 ]} ∧
         trace st' = [LogInfo (SentNotification 7 "800abc");
                      SendMessage 7 (FlightDetected (seconds 1700000000));
                      LogError ErrorFormattingNotification].
Proof.
  destruct (handle_flight_records_iff_delivered calm_world 7 jaipur_box short_jaipur_flight
              (JStr "800abc") initial_bot) as (st' & Hrun & _ & _ & Hsent).
  - vm_compute. reflexivity.
  - reflexivity.
  - reflexivity.
  - exists st'. split; [exact Hrun|]. simpl in Hsent. destruct Hsent as [Hrec Htrace].
    split; [rewrite Hrec; vm_compute; reflexivity|exact Htrace].
Defined.

(** ** One cycle *)

Section grows.
Context {A B : Type}.

Lemma grows_ret (a : A) : grows (mret a : M A).
Proof. intros st. by exists []. Qed.

Lemma grows_lift (r : res A) : grows (Bot.lift r).
Proof. intros st. by exists []. Qed.

Lemma grows_raise (e : exn) : grows (Bot.raise e : M A).
Proof. intros st. by exists []. Qed.

Lemma grows_bind (m : M A) (f : A → M B) :
  grows m → (∀ a, grows (f a)) → grows (m ≫= f).
Proof.
  intros Hm Hf st. unfold_M. destruct (Hm st) as [evs Hevs].
  destruct (m st) as [[a|e] st1]; simpl in *.
  - destruct (Hf a st1) as [evs' Hevs']. exists (evs' ++ evs).
    by rewrite Hevs', Hevs, (assoc_L (++)).
  - by exists evs.
Qed.

Lemma grows_try_except (m : M A) (h : exn → M A) :
  grows m → (∀ e, grows (h e)) → grows (Bot.try_except m h).
Proof.
  intros Hm Hh st. unfold_M. destruct (Hm st) as [evs Hevs].
  destruct (m st) as [[a|e] st1]; simpl in *.
  - by exists evs.
  - destruct (Hh e st1) as [evs' Hevs']. exists (evs' ++ evs).
    by rewrite Hevs', Hevs, (assoc_L (++)).
Qed.
End grows.

Lemma grows_get : grows Bot.get.
Proof. intros st. by exists []. Qed.

Lemma grows_emit ev : grows (Bot.emit ev).
Proof. intros st. by exists [ev]. Qed.

Lemma grows_next_tick : grows Bot.next_tick.
Proof. intros st. by exists []. Qed.

Lemma grows_set_notified_flights d : grows (Bot.set_notified_flights d).
Proof. intros st. by exists []. Qed.

Lemma grows_for_each {X} (l : list X) (body : X → M unit) :
  (∀ x, grows (body x)) → grows (Bot.for_each l body).
Proof.
  intros Hbody. induction l as [|x l IH]; simpl.
  - apply (grows_ret tt).
  - apply (grows_bind (body x) (λ _, Bot.for_each l body)); auto.
Qed.

Create HintDb grows.
#[local] Hint Resolve grows_ret grows_lift grows_raise grows_get grows_emit
  grows_next_tick grows_set_notified_flights : grows.

Ltac grows_step :=
  first
    [ apply grows_bind; [|intros ?]
    | apply grows_try_except; [|intros ?]
    | solve [auto with grows]
    | case_match ].

Lemma grows_handle_flight w chat a flight_state :
  grows (handle_flight w chat a flight_state).
Proof.
  unfold handle_flight, format_flight_notification, bot_send_message, now,
    logger_info, logger_error.
  repeat grows_step.
Qed.

(** The fetch never raises, and the request it makes is on record. *)
Lemma get_flights_in_area_ok w a st :
  ∃ v st1 evs, get_flights_in_area w a st = (Ok v, st1) ∧
               trace st1 = evs ++ HttpGet a :: trace st.
Proof.
  unfold get_flights_in_area, logger_error. unfold_M. simpl.
  destruct (requests_get w (tick st) a) as [e|status_code [data|e]]; simpl.
  - by eexists _, _, [_].
  - destruct (status_code =? 200); simpl; [|by eexists _, _, [_]].
    destruct (truthy data); simpl; [|by eexists _, _, []].
    destruct (py_get data "states" (JArr [])); simpl;
      [by eexists _, _, []|by eexists _, _, [_]].
  - destruct (status_code =? 200); simpl; by eexists _, _, [_].
Qed.

Lemma try_except_bind_run {A B} (m : M A) (f : A → M B) (h : exn → M B) st v st1 :
  m st = (Ok v, st1) → Bot.try_except (m ≫= f) h st = Bot.try_except (f v) h st1.
Proof. intros H. unfold_M. by rewrite H. Qed.

(** The [try] around one subscriber: it returns normally whatever happened
    inside, and the request for the subscriber's area was made. *)
Lemma monitor_area_ok w chat a st :
  ∃ st' evs, monitor_area w chat a st = (Ok tt, st') ∧
             trace st' = evs ++ HttpGet a :: trace st.
Proof.
  destruct (get_flights_in_area_ok w a st) as (v & st1 & evs1 & Hfetch & Htrace1).
  unfold monitor_area. rewrite (try_except_bind_run _ _ _ _ _ _ Hfetch).
  assert (grows (Bot.lift (py_iter v) ≫= λ l, Bot.for_each l (handle_flight w chat a)))
    as Hgrows.
  { apply grows_bind; [apply grows_lift|]. intros l.
    apply grows_for_each. intros x. apply grows_handle_flight. }
  destruct (Hgrows st1) as [evs2 Htrace2].
  unfold Bot.try_except, logger_error, Bot.emit.
  destruct ((Bot.lift (py_iter v) ≫= λ l, Bot.for_each l (handle_flight w chat a)) st1)
    as [[[]|e] st2]; simpl in *.
  - exists st2, (evs2 ++ evs1). split; [done|].
    by rewrite Htrace2, Htrace1, (assoc_L (++)).
  - eexists _, (LogError (ErrorMonitoringArea chat e) :: evs2 ++ evs1). split; [done|].
    simpl. by rewrite Htrace2, Htrace1, (assoc_L (++)).
Qed.

(** The loop over the subscribers runs to its end: the state after it is
    the one obtained by running [monitor_area] for each subscriber in
    turn, each from the state its predecessor left. *)
Lemma for_each_monitor_area_run w (items : list (Z * area)) st :
  Bot.for_each items (λ kv, monitor_area w kv.1 kv.2) st =
    (Ok tt, foldl (λ s kv, (monitor_area w kv.1 kv.2 s).2) st items).
Proof.
  revert st. induction items as [|[chat a] items IH]; intros st; simpl; [done|].
  destruct (monitor_area_ok w chat a st) as (st1 & evs & Hrun & _).
  unfold Bot.bind. rewrite Hrun. simpl. apply IH.
Qed.

Lemma for_each_monitor_area_ok w (items : list (Z * area)) st :
  ∃ st' evs, Bot.for_each items (λ kv, monitor_area w kv.1 kv.2) st = (Ok tt, st') ∧
             trace st' = evs ++ trace st ∧
             ∀ chat a, (chat, a) ∈ items → HttpGet a ∈ evs ∧ processed w st st' chat a.
Proof.
  revert st. induction items as [|[chat a] items IH]; intros st; simpl.
  - exists st, []. split; [done|]. split; [done|]. intros ?? H. by apply elem_of_nil in H.
  - destruct (monitor_area_ok w chat a st) as (st1 & evs1 & Hrun & Htrace1).
    destruct (IH st1) as (st2 & evs2 & Hrest & Htrace2 & Hall).
    unfold Bot.bind. rewrite Hrun. simpl.
    exists st2, (evs2 ++ evs1 ++ [HttpGet a]). split; [done|]. split.
    + rewrite Htrace2, Htrace1. by rewrite <- !(assoc_L (++)).
    + intros chat' a' [[= -> ->]|Hin]%elem_of_cons.
      * split.
        { rewrite !elem_of_app. right. right. by apply list_elem_of_singleton. }
        by exists st, st1, [], evs2.
      * destruct (Hall chat' a' Hin) as (Hget & s & s' & before & after & Hs & Hb & Ha).
        split; [rewrite elem_of_app; by left|].
        exists s, s', (before ++ evs1 ++ [HttpGet a]), after. split; [done|]. split; [|done].
        rewrite Hb, Htrace1. by rewrite <- !(assoc_L (++)).
Qed.

(** ** Scenarios *)

(** Three subscribers, two of them failing: the cycle returns normally,
    the first two subscribers leave an error line each, and the third is
    sent its notification and gets its cooldown record. *)
Lemma cycle_with_failing_subscribers :
  let r := monitor_cycle uneven_world three_subscribers in
  r.1 = Ok tt ∧
  trace r.2 =
    [Sleep 180;
     LogInfo (SentNotification 7 "800abc");
     SendMessage 7 (FlightNotification jaipur_flight jaipur_box (seconds 1700000003));
     HttpGet jaipur_box;
     LogError (ErrorMonitoringArea 2 TypeError);
     HttpGet (Area (Finite 1) (Finite (-1)) (Finite 11) (Finite 9) 2);
     LogError (ErrorFetchingFlights RequestException);
     HttpGet (Area (Finite 1) (Finite (-1)) (Finite 11) (Finite 9) 1)] ∧
  notified_flights r.2 !! "7_800abc" = Some (seconds 1700000005).
Proof. vm_compute. done. Qed.

(** The day-old record inside the cycle: the subscriber was notified of
    the aircraft at time 0; one day and five minutes later the aircraft is
    inside the area again and nothing is sent. *)
Lemma handle_flight_silent_after_a_day :
  handle_flight next_day_world 7 jaipur_box jaipur_flight
    (Bot ∅ [(7, jaipur_box)] {[ "7_800abc" := 0 ]} [] 0)
  = (Ok tt, Bot ∅ [(7, jaipur_box)] {[ "7_800abc" := 0 ]} [] 1).
Proof. vm_compute. done. Qed.

(** The first scenario: with a record made at time 0, the same aircraft
    is passed over five minutes later and notified again after 31
    minutes. *)
Lemma handle_flight_cooldown_scenario :
  let st := Bot ∅ [(7, jaipur_box)] {[ "7_800abc" := 0 ]} [] 0 in
  trace (handle_flight (world_at_minute 5) 7 jaipur_box jaipur_flight st).2 = [] ∧
  trace (handle_flight (world_at_minute 31) 7 jaipur_box jaipur_flight st).2 =
    [LogInfo (SentNotification 7 "800abc");
     SendMessage 7 (FlightNotification jaipur_flight jaipur_box (minutes 31))] ∧
  notified_flights (handle_flight (world_at_minute 31) 7 jaipur_box jaipur_flight st).2
    !! "7_800abc" = Some (minutes 31).
Proof. vm_compute. done. Qed.

(** * Further properties *)

(** ** The containment test, continued *)

Lemma float_le_trans x y z :
  float_le x y = true → float_le y z = true → float_le x z = true.
Proof.
  destruct x as [a| | |], y as [b| | |], z as [c| | |]; simpl; try done.
  rewrite !Qle_bool_iff. apply Qle_trans.
Qed.

Lemma chained_le_true_inv lo v hi :
  chained_le lo v hi = Ok (JBool true) →
  ∃ x, as_number v = Ok x ∧ float_le lo x = true ∧ float_le x hi = true.
Proof.
  unfold chained_le. destruct (as_number v) as [x|e]; unfold_res; [|done].
  destruct (float_le lo x) eqn:E; [|done]. intros [= Hhi]. by exists x.
Qed.

(** What a [True] answer tells about the record. *)
Lemma is_flight_in_area_true_inv (flight_state : json) (a : area) :
  is_flight_in_area flight_state a = Ok (JBool true) →
  ∃ l lon lat gnd x y,
    flight_state = JArr l ∧
    l !! 5%nat = Some lon ∧ l !! 6%nat = Some lat ∧ l !! 8%nat = Some gnd ∧
    truthy lon = true ∧ truthy lat = true ∧ truthy gnd = false ∧
    as_number lon = Ok x ∧ as_number lat = Ok y ∧
    float_le (south a) y = true ∧ float_le y (north a) = true ∧
    float_le (west a) x = true ∧ float_le x (east a) = true.
Proof.
  unfold is_flight_in_area, is_flight_in_area_body.
  destruct (py_len flight_state) as [n|] eqn:En; unfold_res; [|done].
  destruct (n <? 7)%nat; [done|].
  destruct (py_getitem flight_state 5) as [lon|] eqn:E5; [|done].
  destruct (py_getitem flight_state 6) as [lat|] eqn:E6; [|done].
  destruct (py_getitem flight_state 8) as [gnd|] eqn:E8; [|done].
  destruct (truthy lon) eqn:Tlon; simpl; [|done].
  destruct (truthy lat) eqn:Tlat; simpl; [|done].
  destruct (truthy gnd) eqn:Tgnd; simpl; [done|].
  destruct (chained_le_cases (south a) lat (north a)) as [[b Hb]|Hb];
    rewrite Hb; [|done].
  unfold py_and. simpl. destruct b; [|done].
  destruct (chained_le (west a) lon (east a)) as [v|] eqn:Hlon; [|done].
  intros [= ->].
  apply chained_le_true_inv in Hb as (y & Hy & Hy1 & Hy2).
  apply chained_le_true_inv in Hlon as (x & Hx & Hx1 & Hx2).
  destruct flight_state as [| | | |s|l|o]; try done.
  - (* a string: its characters are truthy, the one at index 8 too *)
    simpl in E8. destruct (String.get 8 s); [|done].
    injection E8 as <-. done.
  - simpl in E5, E6, E8.
    destruct (l !! 5%nat) eqn:L5; [|done]. injection E5 as ->.
    destruct (l !! 6%nat) eqn:L6; [|done]. injection E6 as ->.
    destruct (l !! 8%nat) eqn:L8; [|done]. injection E8 as ->.
    exists l, lon, lat, gnd, x, y. done.
Qed.

(** X1: a [True] answer is never wrong. When [is_flight_in_area] returns
    [True] the record is a list with a numeric longitude and latitude
    that satisfy the four inclusive comparisons of the box, and a ground
    flag that is not set. *)
Theorem is_flight_in_area_sound (flight_state : json) (a : area) :
  is_flight_in_area flight_state a = Ok (JBool true) →
  ∃ l lon lat gnd x y,
    flight_state = JArr l ∧
    l !! 5%nat = Some lon ∧ l !! 6%nat = Some lat ∧ l !! 8%nat = Some gnd ∧
    truthy gnd = false ∧
    as_number lon = Ok x ∧ as_number lat = Ok y ∧
    float_le (south a) y = true ∧ float_le y (north a) = true ∧
    float_le (west a) x = true ∧ float_le x (east a) = true.
Proof.
  intros H.
  destruct (is_flight_in_area_true_inv _ _ H)
    as (l & lon & lat & gnd & x & y & ? & ? & ? & ? & _ & _ & ? & ? & ? & ? & ? & ? & ?).
  by exists l, lon, lat, gnd, x, y.
Qed.

Lemma is_flight_in_area_sound_witness :
  ∃ l lon lat gnd x y,
    jaipur_flight = JArr l ∧
    l !! 5%nat = Some lon ∧ l !! 6%nat = Some lat ∧ l !! 8%nat = Some gnd ∧
    truthy gnd = false ∧
    as_number lon = Ok x ∧ as_number lat = Ok y ∧
    float_le (south jaipur_box) y = true ∧ float_le y (north jaipur_box) = true ∧
    float_le (west jaipur_box) x = true ∧ float_le x (east jaipur_box) = true.
Proof.
  apply (is_flight_in_area_sound jaipur_flight jaipur_box). vm_compute. reflexivity.
Defined.

(** X2: a flight that is inside a box is inside every box that contains
    that box. *)
Theorem is_flight_in_area_larger_box (flight_state : json) (a b : area) :
  is_flight_in_area flight_state a = Ok (JBool true) →
  box_within a b →
  is_flight_in_area flight_state b = Ok (JBool true).
Proof.
  intros H (Hs & Hn & Hw & He).
  destruct (is_flight_in_area_true_inv _ _ H)
    as (l & lon & lat & gnd & x & y & -> & L5 & L6 & L8 & Tlon & Tlat & Tgnd
        & Hx & Hy & Hy1 & Hy2 & Hx1 & Hx2).
  rewrite (is_flight_in_area_airborne l b lon lat gnd x y) by done.
  rewrite (float_le_trans _ _ _ Hs Hy1), (float_le_trans _ _ _ Hy2 Hn).
  by rewrite (float_le_trans _ _ _ Hw Hx1), (float_le_trans _ _ _ Hx2 He).
Qed.

Lemma is_flight_in_area_larger_box_witness :
  is_flight_in_area jaipur_flight
    (Area (Finite 27) (Finite 26) (Finite 76) (Finite 75) 7) = Ok (JBool true).
Proof.
  apply (is_flight_in_area_larger_box jaipur_flight jaipur_box).
  - vm_compute. reflexivity.
  - repeat split.
Defined.

(** ** One flight, continued *)

Lemma is_flight_in_area_on_ground (l : list json) (a : area) gnd :
  l !! 8%nat = Some gnd → truthy gnd = true →
  is_flight_in_area (JArr l) a = Ok (JBool false).
Proof.
  intros E8 Tgnd. unfold is_flight_in_area, is_flight_in_area_body. simpl. unfold_res.
  destruct (length l <? 7)%nat; [done|].
  destruct (l !! 5%nat) as [lon|]; [|done].
  destruct (l !! 6%nat) as [lat|]; [|done].
  rewrite E8, Tgnd. by rewrite orb_true_r.
Qed.

(** X3: an aircraft reported on the ground never causes anything: for a
    record whose ground flag is set, [handle_flight] returns at once and
    leaves the bot exactly as it was, whatever the position, the box and
    the cooldown records. *)
Theorem handle_flight_on_ground
    (w : world) (chat : Z) (a : area) (l : list json) (gnd : json) (st : bot) :
  l !! 8%nat = Some gnd → truthy gnd = true →
  handle_flight w chat a (JArr l) st = (Ok tt, st).
Proof.
  intros E8 Tgnd. unfold handle_flight.
  rewrite (is_flight_in_area_on_ground l a gnd E8 Tgnd). reflexivity.
Qed.

Lemma handle_flight_on_ground_witness :
  handle_flight calm_world 7 jaipur_box
    (JArr [JStr "800abc"; JStr "AIC101  "; JStr "India"; JInt 1700000000; JInt 1700000000;
           JFloat (Finite (7578 # 100)); JFloat (Finite (2690 # 100)); JNull; JBool true])
    initial_bot
  = (Ok tt, initial_bot).
Proof. by apply (handle_flight_on_ground calm_world 7 jaipur_box _ (JBool true)). Defined.

(** X4: within 30 minutes of the record of a subscriber and an aircraft,
    the aircraft being inside the area again causes nothing but a reading
    of the clock: no message, no log line, and the record keeps its
    time. *)
Theorem handle_flight_suppressed
    (w : world) (chat : Z) (a : area) (flight_state first : json) (st : bot) (t0 : Z) :
  is_flight_in_area flight_state a = Ok (JBool true) →
  py_getitem flight_state 0 = Ok first →
  notified_flights st !! notification_key w chat (py_or first (JStr "unknown")) = Some t0 →
  0 <= clock w (tick st) - t0 < minutes 30 →
  handle_flight w chat a flight_state st =
    (Ok tt, Bot (table st) (monitoring_areas st) (notified_flights st) (trace st)
                (S (tick st))).
Proof.
  intros Hin Hfirst Hrec Hage.
  unfold handle_flight, now. rewrite Hin, Hfirst. unfold_M. simpl.
  rewrite bool_decide_eq_true_2 by (by rewrite Hrec). simpl.
  unfold in_cooldown. rewrite Hrec.
  rewrite td_seconds_within_day by (unfold minutes, seconds in *; lia).
  replace (_ <? 1800) with true; [done|].
  symmetry. apply Z.ltb_lt. unfold minutes, seconds in Hage.
  apply Z.div_lt_upper_bound; lia.
Qed.

Lemma handle_flight_suppressed_witness :
  handle_flight (world_at_minute 29) 7 jaipur_box jaipur_flight
    (Bot ∅ [(7, jaipur_box)] {[ "7_800abc" := 0 ]} [] 0)
  = (Ok tt, Bot ∅ [(7, jaipur_box)] {[ "7_800abc" := 0 ]} [] 1).
Proof.
  rewrite (handle_flight_suppressed (world_at_minute 29) 7 jaipur_box jaipur_flight
             (JStr "800abc") (Bot ∅ [(7, jaipur_box)] {[ "7_800abc" := 0 ]} [] 0) 0).
  - reflexivity.
  - vm_compute. reflexivity.
  - reflexivity.
  - vm_compute. reflexivity.
  - vm_compute. split; [discriminate|reflexivity].
Defined.

(** ** Cooldown keys *)

Lemma pretty_N_char_no_underscore x : pretty_N_char x ≠ "_"%char.
Proof. unfold pretty_N_char. by repeat case_match. Qed.

Lemma pretty_N_go_no_underscore x s :
  has_char "_" s = false → has_char "_" (pretty_N_go x s) = false.
Proof.
  revert s. induction (N.lt_wf_0 x) as [x _ IH]; intros s Hs.
  assert (x = 0 ∨ 0 < x)%N as [->|Hpos] by lia.
  - by rewrite pretty_N_go_0.
  - rewrite pretty_N_go_step by done. apply IH.
    { by apply N.div_lt. }
    simpl. rewrite Hs, orb_false_r.
    apply bool_decide_eq_false, pretty_N_char_no_underscore.
Qed.

Lemma pretty_N_no_underscore (x : N) : has_char "_" (pretty x) = false.
Proof.
  unfold pretty, pretty_N. case_decide; [done|].
  by apply pretty_N_go_no_underscore.
Qed.

(** The decimal text of an integer has no underscore in it. *)
Lemma pretty_Z_no_underscore (z : Z) : has_char "_" (pretty z) = false.
Proof.
  destruct z as [|p|p]; unfold pretty, pretty_Z; [done| |].
  - apply pretty_N_no_underscore.
  - simpl. apply pretty_N_no_underscore.
Qed.

Lemma append_underscore_inj s1 s2 t1 t2 :
  has_char "_" s1 = false → has_char "_" s2 = false →
  s1 +:+ "_" +:+ t1 = s2 +:+ "_" +:+ t2 → s1 = s2 ∧ t1 = t2.
Proof.
  revert s2. induction s1 as [|c s1 IH]; intros [|c' s2]; cbn [has_char];
    intros H1 H2 Heq; cbv [String.append] in Heq; fold String.append in Heq.
  - by injection Heq as ->.
  - injection Heq as <- _. apply orb_false_elim in H2 as [Hc _].
    by apply bool_decide_eq_false in Hc.
  - injection Heq as -> _. apply orb_false_elim in H1 as [Hc _].
    by apply bool_decide_eq_false in Hc.
  - injection Heq as -> Heq.
    apply orb_false_elim in H1 as [_ H1]. apply orb_false_elim in H2 as [_ H2].
    destruct (IH s2 H1 H2 Heq) as [-> ->]. done.
Qed.

Lemma notification_key_parts w chat1 chat2 icao1 icao2 :
  notification_key w chat1 icao1 = notification_key w chat2 icao2 →
  chat1 = chat2 ∧ py_format w icao1 = py_format w icao2.
Proof.
  unfold notification_key. intros H.
  apply append_underscore_inj in H as [H1 H2]; try apply pretty_Z_no_underscore.
  split; [|done]. by apply (inj pretty).
Qed.

(** X5: the cooldown key tells subscribers and aircraft apart. Two keys
    are equal only for the same subscriber and the same aircraft text, so
    no two subscribers, and no two aircraft of one subscriber, ever share
    a record. *)
Theorem notification_key_inj (w : world) (chat1 chat2 : Z) (icao1 icao2 : json) :
  notification_key w chat1 icao1 = notification_key w chat2 icao2 ↔
  chat1 = chat2 ∧ py_format w icao1 = py_format w icao2.
Proof.
  split; [apply notification_key_parts|].
  unfold notification_key. by intros [-> ->].
Qed.

(** ** What the cycle keeps its hands off *)

Section confined.
Context {A B : Type} (P : event → Prop) (K : string → Prop).

Lemma confined_ret (a : A) : confined P K (mret a : M A).
Proof. intros st. split; [by exists []|done]. Qed.

Lemma confined_lift (r : res A) : confined P K (Bot.lift r).
Proof. intros st. split; [by exists []|done]. Qed.

Lemma confined_bind (m : M A) (f : A → M B) :
  confined P K m → (∀ a, confined P K (f a)) → confined P K (m ≫= f).
Proof.
  intros Hm Hf st. unfold_M.
  destruct (Hm st) as ((evs & Hevs & HP) & Ht & Hm' & Hk).
  destruct (m st) as [[a|e] st1]; simpl in *; [|by eauto 10].
  destruct (Hf a st1) as ((evs' & Hevs' & HP') & Ht' & Hm'' & Hk').
  split; [|split; [congruence|split; [congruence|]]].
  - exists (evs' ++ evs). split; [by rewrite Hevs', Hevs, (assoc_L (++))|].
    by apply Forall_app.
  - intros k Hnot. by rewrite Hk', Hk.
Qed.

Lemma confined_try_except (m : M A) (h : exn → M A) :
  confined P K m → (∀ e, confined P K (h e)) → confined P K (Bot.try_except m h).
Proof.
  intros Hm Hh st. unfold_M.
  destruct (Hm st) as ((evs & Hevs & HP) & Ht & Hm' & Hk).
  destruct (m st) as [[a|e] st1]; simpl in *; [by eauto 10|].
  destruct (Hh e st1) as ((evs' & Hevs' & HP') & Ht' & Hm'' & Hk').
  split; [|split; [congruence|split; [congruence|]]].
  - exists (evs' ++ evs). split; [by rewrite Hevs', Hevs, (assoc_L (++))|].
    by apply Forall_app.
  - intros k Hnot. by rewrite Hk', Hk.
Qed.
End confined.

Lemma confined_emit P K ev : P ev → confined P K (Bot.emit ev).
Proof. intros Hev st. split; [exists [ev]; split; [done|by constructor]|done]. Qed.

Lemma confined_mono {A} (P P' : event → Prop) (K K' : string → Prop) (m : M A) :
  (∀ ev, P ev → P' ev) → (∀ k, K k → K' k) → confined P K m → confined P' K' m.
Proof.
  intros HP HK Hm st. destruct (Hm st) as ((evs & Hevs & Hall) & Ht & Hm' & Hk).
  split; [|split; [done|split; [done|]]].
  - exists evs. split; [done|]. eapply Forall_impl; eauto.
  - intros k Hnot. apply Hk. auto.
Qed.

Lemma confined_for_each {X} P K (l : list X) (body : X → M unit) :
  (∀ x, x ∈ l → confined P K (body x)) → confined P K (Bot.for_each l body).
Proof.
  induction l as [|x l IH]; intros Hbody; simpl.
  - apply (confined_ret P K tt).
  - apply (confined_bind P K (body x) (λ _, Bot.for_each l body)).
    + apply Hbody. by left.
    + intros _. apply IH. intros y Hy. apply Hbody. by right.
Qed.

Ltac give_events :=
  lazymatch goal with
  | |- ∃ evs, ?a :: ?b :: ?c :: trace ?st = evs ++ trace ?st ∧ _ => exists [a; b; c]
  | |- ∃ evs, ?a :: ?b :: trace ?st = evs ++ trace ?st ∧ _ => exists [a; b]
  | |- ∃ evs, ?a :: trace ?st = evs ++ trace ?st ∧ _ => exists [a]
  | |- ∃ evs, trace ?st = evs ++ trace ?st ∧ _ => exists []
  end;
  split; [reflexivity|repeat constructor].

(** The fetch sends nothing and touches no record. *)
Lemma confined_get_flights_in_area w a :
  confined (sends_only_to (λ _, False)) (λ _, False) (get_flights_in_area w a).
Proof.
  intros st. unfold get_flights_in_area, logger_error. unfold_M. simpl.
  destruct (requests_get w (tick st) a) as [e|status_code [data|e]]; simpl.
  - split; [give_events|done].
  - destruct (status_code =? 200); simpl;
      [|split; [give_events|done]].
    destruct (truthy data); simpl;
      [|split; [give_events|done]].
    destruct (py_get data "states" (JArr [])); simpl.
    + split; [give_events|done].
    + split; [give_events|done].
  - destruct (status_code =? 200); simpl;
      split; try done; give_events.
Qed.

(** One flight: messages go to the subscriber only, and only the
    subscriber's own cooldown records can change. *)
Lemma confined_handle_flight w chat a flight_state :
  confined (sends_only_to (eq chat)) (key_of_chat w chat)
           (handle_flight w chat a flight_state).
Proof.
  intros st.
  unfold handle_flight, format_flight_notification, bot_send_message, now,
    logger_info, logger_error.
  unfold_M. simpl.
  destruct (is_flight_in_area flight_state a) as [inside|]; simpl;
    [|split; [give_events|done]].
  destruct (truthy inside); simpl; [|split; [give_events|done]].
  destruct (py_getitem flight_state 0) as [first|]; simpl;
    [|split; [give_events|done]].
  set (key := notification_key w chat (py_or first (JStr "unknown"))).
  assert (∀ t k, ¬ key_of_chat w chat k →
            <[key := t]> (notified_flights st) !! k = notified_flights st !! k) as Hother.
  { intros t k Hnot. apply lookup_insert_ne. intros <-. apply Hnot. by eexists. }
  destruct (bool_decide (is_Some (notified_flights st !! key))); simpl.
  - destruct (in_cooldown (notified_flights st) key (clock w (tick st))); simpl;
      [split; [give_events|done]|].
    destruct (format_fields w flight_state a) as [[]|e0]; simpl;
      destruct (send_message w (S (S (tick st))) chat _) as [[]|e]; simpl;
      (split; [give_events|]; split; [done|]; split; [done|]; first [done|apply Hother]).
  - destruct (format_fields w flight_state a) as [[]|e0]; simpl;
      destruct (send_message w (S (tick st)) chat _) as [[]|e]; simpl;
      (split; [give_events|]; split; [done|]; split; [done|]; first [done|apply Hother]).
Qed.

Lemma confined_monitor_area w chat a :
  confined (sends_only_to (eq chat)) (key_of_chat w chat) (monitor_area w chat a).
Proof.
  unfold monitor_area, logger_error.
  apply confined_try_except; [|intros e; by apply confined_emit].
  apply confined_bind.
  { eapply confined_mono; [| |apply confined_get_flights_in_area]; [|done].
    by intros [| | | |]. }
  intros flights. apply confined_bind; [apply confined_lift|].
  intros l. apply confined_for_each. intros x _. apply confined_handle_flight.
Qed.

(** The whole pass. *)
Lemma confined_monitor_cycle w st :
  (∃ evs, trace (monitor_cycle w st).2 = evs ++ trace st ∧
          Forall (sends_only_to (λ c, c ∈ (monitoring_areas st).*1)) evs) ∧
  table (monitor_cycle w st).2 = table st ∧
  monitoring_areas (monitor_cycle w st).2 = monitoring_areas st.
Proof.
  set (P := sends_only_to (λ c, c ∈ (monitoring_areas st).*1)).
  assert (confined P (λ _, True)
            (Bot.for_each (monitoring_areas st) (λ kv, monitor_area w kv.1 kv.2))) as Hloop.
  { apply confined_for_each. intros [chat a] Hin. simpl.
    eapply confined_mono; [| |apply confined_monitor_area]; [|done].
    intros [| c m | | |]; simpl; try done. intros <-.
    apply list_elem_of_fmap. by exists (chat, a). }
  destruct (Hloop st) as ((evs & Hevs & Hall) & Ht & Hm & _).
  unfold monitor_cycle.
  rewrite (try_except_bind_run Bot.get _ _ st st st) by done.
  destruct (length (monitoring_areas st) =? 0)%nat.
  - unfold sleep. unfold_M. simpl.
    split; [give_events|done].
  - rewrite (try_except_bind_run _ _ _ _ _ _ (for_each_monitor_area_run w _ st)).
    rewrite for_each_monitor_area_run in Hevs, Ht, Hm. simpl in Hevs, Ht, Hm.
    unfold sleep, now. unfold_M. simpl.
    split; [|done]. exists (Sleep 180 :: evs). split; [by rewrite Hevs|].
    by constructor.
Qed.

(** X6: a pass of the monitoring loop never writes the stored areas and
    never changes the set of monitored subscribers: both are, after the
    pass, what they were before it. *)
Theorem monitor_cycle_leaves_areas (w : world) (st : bot) :
  table (monitor_cycle w st).2 = table st ∧
  monitoring_areas (monitor_cycle w st).2 = monitoring_areas st.
Proof. by destruct (confined_monitor_cycle w st) as (_ & ? & ?). Qed.

(** X7: a pass sends messages to monitored subscribers only: every
    message sent during the pass is addressed to a subscriber that was in
    the dictionary of monitored areas when the pass began. *)
Theorem monitor_cycle_sends_to_monitored_only (w : world) (st : bot) :
  ∃ evs, trace (monitor_cycle w st).2 = evs ++ trace st ∧
         ∀ chat m, SendMessage chat m ∈ evs → chat ∈ (monitoring_areas st).*1.
Proof.
  destruct (confined_monitor_cycle w st) as ((evs & Hevs & Hall) & _).
  exists evs. split; [done|]. intros chat m Hin.
  rewrite Forall_forall in Hall. exact (Hall _ Hin).
Qed.

Lemma not_elem_of_del_keys {V} (k : Z) (d : list (Z * V)) : k ∉ (Dict.del k d).*1.
Proof.
  unfold Dict.del. intros ([k' v] & -> & Hin)%list_elem_of_fmap.
  apply list_elem_of_filter in Hin as [Hne _]. by apply Hne.
Qed.

Lemma not_elem_of_keys_get_None {V} (k : Z) (d : list (Z * V)) :
  Dict.get k d = None → k ∉ d.*1.
Proof.
  unfold Dict.get. induction d as [|[k' v] d IH]; simpl; [by intros _ ?%elem_of_nil|].
  destruct (bool_decide (k' = k)) eqn:E; simpl; [done|].
  apply bool_decide_eq_false in E.
  intros Hget [Heq|Hin]%elem_of_cons; [by apply E|]. by apply IH.
Qed.

Lemma stop_user_monitoring_removes w chat st :
  chat ∉ (monitoring_areas (stop_user_monitoring w chat st).2).*1.
Proof.
  unfold stop_user_monitoring, bot_send_message, logger_info. unfold_M. simpl.
  destruct (Dict.mem chat (monitoring_areas st)) eqn:Hmem; simpl.
  - case_match; simpl; apply not_elem_of_del_keys.
  - apply not_elem_of_keys_get_None.
    unfold Dict.mem in Hmem. apply bool_decide_eq_false in Hmem.
    by apply eq_None_not_Some.
Qed.

(** X8: after a stop request the next pass sends the subscriber nothing,
    whatever aircraft the feed reports and whether or not the reply to the
    stop request itself was delivered. *)
Theorem stop_user_monitoring_silences (w : world) (chat : Z) (st : bot) :
  let stopped := (stop_user_monitoring w chat st).2 in
  ∃ evs, trace (monitor_cycle w stopped).2 = evs ++ trace stopped ∧
         ∀ m, SendMessage chat m ∉ evs.
Proof.
  intros stopped.
  destruct (confined_monitor_cycle w stopped) as ((evs & Hevs & Hall) & _).
  exists evs. split; [done|]. intros m Hin.
  rewrite Forall_forall in Hall. specialize (Hall _ Hin). simpl in Hall.
  by apply stop_user_monitoring_removes in Hall.
Qed.

(** X9: processing one subscriber never touches the cooldown records of
    another: for every other subscriber and every aircraft, the record is
    after [monitor_area] what it was before. *)
Theorem monitor_area_keeps_other_records
    (w : world) (chat other : Z) (a : area) (icao24 : json) (st : bot) :
  other ≠ chat →
  notified_flights (monitor_area w chat a st).2 !! notification_key w other icao24
  = notified_flights st !! notification_key w other icao24.
Proof.
  intros Hne. destruct (confined_monitor_area w chat a st) as (_ & _ & _ & Hk).
  apply Hk. intros [icao24' Heq].
  apply notification_key_parts in Heq as [Heq _]. done.
Qed.

Lemma monitor_area_keeps_other_records_witness :
  notified_flights
    (monitor_area uneven_world 7 jaipur_box
       (Bot ∅ [(7, jaipur_box)] {[ "8_800abc" := 0 ]} [] 0)).2
    !! notification_key uneven_world 8 (JStr "800abc")
  = Some 0.
Proof.
  rewrite (monitor_area_keeps_other_records uneven_world 7 8 jaipur_box (JStr "800abc")
             (Bot ∅ [(7, jaipur_box)] {[ "8_800abc" := 0 ]} [] 0)).
  - vm_compute. reflexivity.
  - discriminate.
Defined.

(** ** The pass and the loop *)

(** X10: with no monitored area a pass does nothing but sleep 60 seconds:
    no request to the feed, no message, no reading of the clock, and no
    cleanup of the cooldown records, which stay as they are. *)
Theorem monitor_cycle_idle (w : world) (st : bot) :
  monitoring_areas st = [] →
  monitor_cycle w st =
    (Ok tt, Bot (table st) [] (notified_flights st) (Sleep 60 :: trace st) (tick st)).
Proof.
  intros Hidle. unfold monitor_cycle, sleep. unfold_M. simpl. rewrite Hidle. simpl.
  by rewrite Hidle.
Qed.

Lemma monitor_cycle_idle_witness :
  monitor_cycle calm_world (Bot ∅ [] {[ "7_800abc" := 0 ]} [] 0) =
    (Ok tt, Bot ∅ [] {[ "7_800abc" := 0 ]} [Sleep 60] 0).
Proof.
  rewrite (monitor_cycle_idle calm_world (Bot ∅ [] {[ "7_800abc" := 0 ]} [] 0)).
  - reflexivity.
  - reflexivity.
Defined.

(** X11: [get_flights_in_area] never raises, whatever the feed does: a
    failed request, a bad status, a body that does not decode or that is
    not an object. It makes one request, changes nothing in the bot, and
    logs at most one error line, in which case its result is the empty
    list. *)
Theorem get_flights_in_area_contained (w : world) (a : area) (st : bot) :
  ∃ v logs,
    get_flights_in_area w a st =
      (Ok v, Bot (table st) (monitoring_areas st) (notified_flights st)
                 (logs ++ HttpGet a :: trace st) (S (tick st))) ∧
    (logs = [] ∨ ∃ line, logs = [LogError line] ∧ v = JArr []).
Proof.
  unfold get_flights_in_area, logger_error. unfold_M. simpl.
  destruct (requests_get w (tick st) a) as [e|status_code [data|e]]; simpl.
  - eexists _, [_]. split; [done|]. right. by eexists.
  - destruct (status_code =? 200); simpl.
    + destruct (truthy data); simpl; [|eexists _, []; split; [done|by left]].
      destruct (py_get data "states" (JArr [])); simpl.
      * eexists _, []. split; [done|by left].
      * eexists _, [_]. split; [done|]. right. by eexists.
    + eexists _, [_]. split; [done|]. right. by eexists.
  - destruct (status_code =? 200); simpl;
      (eexists _, [_]; split; [done|]; right; by eexists).
Qed.

(** X12: a 200 answer whose [states] is null, which is what the feed
    sends for an empty sky, makes the subscriber's turn end in the
    [except] clause: one error line, no message, no cooldown record
    touched. *)
Theorem monitor_area_null_states
    (w : world) (chat : Z) (a : area) (data : json) (st : bot) :
  requests_get w (tick st) a = HttpResponse 200 (Ok data) →
  truthy data = true →
  py_get data "states" (JArr []) = Ok JNull →
  monitor_area w chat a st =
    (Ok tt, Bot (table st) (monitoring_areas st) (notified_flights st)
                (LogError (ErrorMonitoringArea chat TypeError) :: HttpGet a :: trace st)
                (S (tick st))).
Proof.
  intros Hget Htruthy Hstates.
  unfold monitor_area, get_flights_in_area, logger_error. unfold_M. simpl.
  rewrite Hget. simpl. rewrite Htruthy, Hstates. reflexivity.
Qed.

Lemma monitor_area_null_states_witness :
  monitor_area uneven_world 2 (Area (Finite 1) (Finite (-1)) (Finite 11) (Finite 9) 2)
    initial_bot =
    (Ok tt, Bot ∅ [] ∅
       [LogError (ErrorMonitoringArea 2 TypeError);
        HttpGet (Area (Finite 1) (Finite (-1)) (Finite 11) (Finite 9) 2)] 1).
Proof.
  rewrite (monitor_area_null_states uneven_world 2
             (Area (Finite 1) (Finite (-1)) (Finite 11) (Finite 9) 2)
             (JObj [("states", JNull)]) initial_bot); reflexivity.
Defined.

Lemma monitor_cycle_returns w st : ∃ st', monitor_cycle w st = (Ok tt, st').
Proof.
  unfold monitor_cycle.
  rewrite (try_except_bind_run Bot.get _ _ st st st) by done.
  destruct (length (monitoring_areas st) =? 0)%nat.
  - unfold sleep. unfold_M. simpl. by eexists.
  - rewrite (try_except_bind_run _ _ _ _ _ _ (for_each_monitor_area_run w _ st)).
    unfold sleep, now. unfold_M. simpl. by eexists.
Qed.

(** X13: the loop survives any number of passes: [monitor_flights] run
    for [n] passes returns normally, and the stored areas and the set of
    monitored subscribers are at the end what they were at the start. *)
Theorem monitor_flights_never_raises (w : world) (n : nat) (st : bot) :
  ∃ st', monitor_flights w n st = (Ok tt, st') ∧
         table st' = table st ∧ monitoring_areas st' = monitoring_areas st.
Proof.
  unfold monitor_flights, logger_info.
  assert (∀ st0, ∃ st', monitor_passes w n st0 = (Ok tt, st') ∧
            table st' = table st0 ∧ monitoring_areas st' = monitoring_areas st0) as Hpasses.
  { induction n as [|n IH]; intros st0; simpl.
    - by exists st0.
    - destruct (monitor_cycle_returns w st0) as [st1 Hrun].
      destruct (confined_monitor_cycle w st0) as (_ & Ht & Hm).
      rewrite Hrun in Ht, Hm. simpl in Ht, Hm.
      destruct (IH st1) as (st2 & Hrest & Ht2 & Hm2).
      exists st2. unfold_M. rewrite Hrun. split; [done|]. split; congruence. }
  unfold_M. simpl.
  destruct (Hpasses (Bot (table st) (monitoring_areas st) (notified_flights st)
                         (LogInfo StartingLoop :: trace st) (tick st)))
    as (st' & Hrun & Ht & Hm).
  by exists st'.
Qed.

(** ** Setting an area and starting *)

(** X14: an area that was saved is the area that gets monitored: after
    [save_user_area] for a subscriber, [start_user_monitoring] puts
    exactly the saved box under the subscriber's key, whether or not the
    reply is delivered. *)
Theorem save_then_start_monitors_saved_box
    (w : world) (chat : Z) (n s e x : pyfloat) (st : bot) :
  let saved := (save_user_area w chat n s e x st).2 in
  Dict.get chat (monitoring_areas (start_user_monitoring w chat saved).2)
  = Some (Area n s e x chat).
Proof.
  unfold save_user_area, start_user_monitoring, bot_send_message, logger_info,
    select_active_area.
  unfold_M. simpl. rewrite lookup_insert_eq. simpl.
  case_match; simpl; apply DictFacts.get_set_eq.
Qed.

(** ** The command handlers *)

Ltac unfold_H :=
  unfold mbind, mret, H_bind, H_ret, Svc.bind, Svc.ret, Svc.try_except, Svc.lift,
    Svc.get, Svc.run, Svc.record_reply, Svc.log_error in *.

(** A reply, delivered or not, changes nothing in the bot but [tick]. *)
Lemma send_reply_core rt chat r s :
  core (send_reply rt chat r s).2 =
    Bot (table (core s)) (monitoring_areas (core s)) (notified_flights (core s))
        (trace (core s)) (S (tick (core s))).
Proof. unfold send_reply. unfold_H. unfold_M. reflexivity. Qed.

Lemma send_reply_failure rt chat r s f :
  (send_reply rt chat r s).1 = Failed f →
  ∃ e, f = EngineError e ∧ reply_result rt (tick (core s)) chat r = Raise e.
Proof.
  unfold send_reply. unfold_H. unfold_M. simpl.
  destruct (reply_result rt (tick (core s)) chat r) as [u|e]; simpl; [done|].
  intros [= <-]. by exists e.
Qed.

Section keeps_areas.
Context {A B : Type}.

Lemma keeps_areas_ret (a : A) : keeps_areas (mret a : H A).
Proof. by intros s. Qed.

Lemma keeps_areas_lift (r : outcome A) : keeps_areas (Svc.lift r).
Proof. by intros s. Qed.

Lemma keeps_areas_bind (m : H A) (f : A → H B) :
  keeps_areas m → (∀ a, keeps_areas (f a)) → keeps_areas (m ≫= f).
Proof.
  intros Hm Hf s. unfold_H. destruct (Hm s) as [Ht Hd].
  destruct (m s) as [[a|e] s1]; simpl in *; [|done].
  destruct (Hf a s1) as [Ht' Hd']. split; congruence.
Qed.

Lemma keeps_areas_try_except (m : H A) (h : failure → H A) :
  keeps_areas m → (∀ e, keeps_areas (h e)) → keeps_areas (Svc.try_except m h).
Proof.
  intros Hm Hh s. unfold_H. destruct (Hm s) as [Ht Hd].
  destruct (m s) as [[a|e] s1]; simpl in *; [done|].
  destruct (Hh e s1) as [Ht' Hd']. split; congruence.
Qed.

(** Whatever the guarded part did to the areas is what the whole [try]
    statement did, when the handler leaves them alone. *)
Lemma try_except_areas (m : H A) (h : failure → H A) s :
  (∀ e, keeps_areas (h e)) →
  table (core (Svc.try_except m h s).2) = table (core (m s).2) ∧
  monitoring_areas (core (Svc.try_except m h s).2) = monitoring_areas (core (m s).2).
Proof.
  intros Hh. unfold_H. destruct (m s) as [[a|e] s1]; simpl; [done|]. apply Hh.
Qed.
End keeps_areas.

Lemma keeps_areas_send_reply rt chat r : keeps_areas (send_reply rt chat r).
Proof. intros s. by rewrite send_reply_core. Qed.

Lemma keeps_areas_log_error f : keeps_areas (Svc.log_error f).
Proof. by intros s. Qed.

Lemma keeps_areas_area_info_of rt n so e we : keeps_areas (area_info_of rt n so e we).
Proof. by intros s. Qed.

Lemma keeps_areas_handler rt chat f :
  keeps_areas (Svc.log_error f ;; send_reply rt chat ErrorProcessingCoordinates).
Proof.
  apply keeps_areas_bind; [apply keeps_areas_log_error|].
  intros _. apply keeps_areas_send_reply.
Qed.

Lemma H_bind_run {A B} (m : H A) (f : A → H B) s a s1 :
  m s = (Done a, s1) → (m ≫= f) s = f a s1.
Proof. intros Hm. unfold_H. by rewrite Hm. Qed.

Lemma H_bind_fail {A B} (m : H A) (f : A → H B) s e s1 :
  m s = (Failed e, s1) → (m ≫= f) s = (Failed e, s1).
Proof. intros Hm. unfold_H. by rewrite Hm. Qed.

Lemma run_save_user_area w chat n so e we s :
  Svc.run (save_user_area w chat n so e we) s =
    (Done tt,
     Service (Bot (<[chat := AreaRow None n so e we 1 (current_timestamp w (tick (core s)))]>
                     (table (core s)))
                  (monitoring_areas (core s)) (notified_flights (core s))
                  (trace (core s)) (S (tick (core s))))
             (replies s) (errors s)).
Proof. reflexivity. Qed.

(** What [process_coordinates] does to the bot's areas. *)
Lemma process_coordinates_areas w rt chat text s :
  monitoring_areas (core (process_coordinates w rt chat text s).2)
    = monitoring_areas (core s) ∧
  (table (core (process_coordinates w rt chat text s).2) = table (core s) ∨
   ∃ n so e we,
     read_coordinates rt text = Done [n; so; e; we] ∧
     validate_coordinates n so e we = true ∧
     table (core (process_coordinates w rt chat text s).2) =
       <[chat := AreaRow None n so e we 1 (current_timestamp w (tick (core s)))]>
         (table (core s))).
Proof.
  unfold process_coordinates.
  match goal with |- context [Svc.try_except ?m ?h s] =>
    destruct (try_except_areas m h s (keeps_areas_handler rt chat)) as [-> ->]
  end.
  destruct (read_coordinates rt text) as [coords|f] eqn:Hread.
  2:{ rewrite (H_bind_fail _ _ s f s) by done. auto. }
  rewrite (H_bind_run _ _ s coords s) by done.
  destruct coords as [|n [|so [|e [|we [|]]]]]; try by auto.
  destruct (validate_coordinates n so e we) eqn:Hvalid; cbn [negb].
  - rewrite (H_bind_run _ _ _ _ _ (run_save_user_area w chat n so e we s)).
    assert (keeps_areas (area_info_of rt n so e we ≫= λ info,
              send_reply rt chat (AreaSetSuccessfully n so e we info))) as Hrest.
    { apply keeps_areas_bind; [apply keeps_areas_area_info_of|].
      intros info. apply keeps_areas_send_reply. }
    match goal with |- context [(_ ≫= _) ?s1] => destruct (Hrest s1) as [-> ->] end.
    simpl. split; [done|]. right. by exists n, so, e, we.
  - destruct (keeps_areas_send_reply rt chat InvalidCoordinates s) as [-> ->]. auto.
Qed.

(** X15: [process_coordinates] stores a box only when the text has
    exactly four comma-separated parts, each of which [float] accepts, and
    the four values pass [validate_coordinates]; the row stored is made of
    those four values. In every other case the table is left as it was,
    and the set of monitored subscribers is never changed. *)
Theorem process_coordinates_stores_valid_only
    (w : world) (rt : runtime) (chat : Z) (text : option string) (s : service) :
  monitoring_areas (core (process_coordinates w rt chat text s).2)
    = monitoring_areas (core s) ∧
  (table (core (process_coordinates w rt chat text s).2) = table (core s) ∨
   ∃ n so e we,
     read_coordinates rt text = Done [n; so; e; we] ∧
     validate_coordinates n so e we = true ∧
     table (core (process_coordinates w rt chat text s).2) =
       <[chat := AreaRow None n so e we 1 (current_timestamp w (tick (core s)))]>
         (table (core s))).
Proof. apply process_coordinates_areas. Qed.

(** X16: a valid box is stored, whatever becomes of the replies: when the
    text yields four floats that pass validation, the subscriber's row is,
    after [process_coordinates], the row made of them, with the active
    flag set, even if the confirmation cannot be delivered. *)
Theorem process_coordinates_stores_valid
    (w : world) (rt : runtime) (chat : Z) (text : option string) (s : service)
    (n so e we : pyfloat) :
  read_coordinates rt text = Done [n; so; e; we] →
  validate_coordinates n so e we = true →
  table (core (process_coordinates w rt chat text s).2) !! chat =
    Some (AreaRow None n so e we 1 (current_timestamp w (tick (core s)))).
Proof.
  intros Hread Hvalid. unfold process_coordinates.
  match goal with |- context [Svc.try_except ?m ?h s] =>
    destruct (try_except_areas m h s (keeps_areas_handler rt chat)) as [-> _]
  end.
  rewrite (H_bind_run _ _ s [n; so; e; we] s) by (unfold Svc.lift; by rewrite Hread).
  rewrite Hvalid. cbn [negb].
  rewrite (H_bind_run _ _ _ _ _ (run_save_user_area w chat n so e we s)).
  assert (keeps_areas (area_info_of rt n so e we ≫= λ info,
            send_reply rt chat (AreaSetSuccessfully n so e we info))) as Hrest.
  { apply keeps_areas_bind; [apply keeps_areas_area_info_of|].
    intros info. apply keeps_areas_send_reply. }
  match goal with |- context [(_ ≫= _) ?s1] => destruct (Hrest s1) as [-> _] end.
  simpl. apply lookup_insert_eq.
Qed.

Lemma process_coordinates_stores_valid_witness :
  table (core (process_coordinates calm_world mute_runtime 7
                 (Some "26.95,26.87,75.82,75.74") (Service initial_bot [] [])).2) !! 7 =
    Some (AreaRow None (Finite (2695 # 100)) (Finite (2687 # 100))
                  (Finite (7582 # 100)) (Finite (7574 # 100)) 1 1700000000).
Proof.
  rewrite (process_coordinates_stores_valid calm_world mute_runtime 7
             (Some "26.95,26.87,75.82,75.74") (Service initial_bot [] [])
             (Finite (2695 # 100)) (Finite (2687 # 100))
             (Finite (7582 # 100)) (Finite (7574 # 100))).
  - reflexivity.
  - vm_compute. reflexivity.
  - vm_compute. reflexivity.
Defined.

(** X17: no error of the parsing escapes [process_coordinates]: a text
    that is missing, has the wrong number of parts or holds something
    [float] refuses is answered with the error text. The only exception
    the handler can end with is the one [send_message] raises when that
    error text itself cannot be delivered. *)
Theorem process_coordinates_failure
    (w : world) (rt : runtime) (chat : Z) (text : option string) (s : service)
    (f : failure) :
  (process_coordinates w rt chat text s).1 = Failed f →
  ∃ t e, f = EngineError e ∧ reply_result rt t chat ErrorProcessingCoordinates = Raise e.
Proof.
  unfold process_coordinates. unfold Svc.try_except.
  match goal with |- context [match ?m s with _ => _ end] =>
    destruct (m s) as [[[]|f0] s1]
  end; lazy beta iota; [done|].
  intros Hfail. rewrite (H_bind_run _ _ s1 tt (Service (core s1) (replies s1) (f0 :: errors s1)))
    in Hfail by done.
  apply send_reply_failure in Hfail as (e & -> & He). eauto.
Qed.

Lemma process_coordinates_failure_witness :
  ∃ t e, EngineError ApiException = EngineError e ∧
         reply_result mute_runtime t 7 ErrorProcessingCoordinates = Raise e.
Proof.
  apply (process_coordinates_failure calm_world mute_runtime 7 None
           (Service initial_bot [] []) (EngineError ApiException)).
  reflexivity.
Defined.

(** ** Telling a coordinate message *)

Lemma length_py_split sep s : length (py_split sep s) = S (count_char sep s).
Proof.
  induction s as [|c s IH]; simpl; [done|].
  destruct (bool_decide (c = sep)); simpl; [by rewrite IH|].
  destruct (py_split sep s) as [|part parts]; simpl in *; [done|]. done.
Qed.

Lemma count_char_py_remove c c' s :
  c ≠ c' → count_char c (py_remove c' s) = count_char c s.
Proof.
  intros Hne. induction s as [|x s IH]; simpl; [done|].
  destruct (bool_decide (x = c')) eqn:E; simpl.
  - apply bool_decide_eq_true in E as ->.
    by rewrite bool_decide_eq_false_2.
  - by rewrite IH.
Qed.

(** X18: a message that [is_coordinate_message] lets through has exactly
    four comma-separated parts as [process_coordinates] splits it, so the
    unpacking into north, south, east and west cannot fail for it; removing
    the blanks first, as the test does, does not change the count. *)
Theorem is_coordinate_message_four_parts (rt : runtime) (s : string) :
  is_coordinate_message rt (Some s) = true →
  length (py_split "," (py_strip rt s)) = 4%nat.
Proof.
  unfold is_coordinate_message. intros [Hlen _]%andb_true_iff.
  apply Nat.eqb_eq in Hlen.
  rewrite length_py_split in *. by rewrite count_char_py_remove in Hlen.
Qed.

Lemma is_coordinate_message_four_parts_witness :
  length (py_split "," (py_strip plain_runtime "26.95, 26.87, 75.82, 75.74")) = 4%nat.
Proof.
  apply (is_coordinate_message_four_parts plain_runtime "26.95, 26.87, 75.82, 75.74").
  vm_compute. reflexivity.
Defined.

(** ** Requests that only ask *)

(** X19: the requests for a text (welcome, help, set-up and precision
    texts, the current area, the status) change nothing the monitoring
    depends on: stored areas, monitored subscribers, cooldown records and
    the record of the engine's doings are after them what they were
    before, delivered or not. *)
Theorem handle_asks_only
    (w : world) (rt : runtime) (chat : Z) (r : request) (s : service) :
  asks_only r →
  table (core (handle w rt chat r s).2) = table (core s) ∧
  monitoring_areas (core (handle w rt chat r s).2) = monitoring_areas (core s) ∧
  notified_flights (core (handle w rt chat r s).2) = notified_flights (core s) ∧
  trace (core (handle w rt chat r s).2) = trace (core s).
Proof.
  intros Hr. destruct r; try done;
    unfold handle, show_current_area, show_status, send_reply, area_info_of, now;
    unfold_H; unfold_M; simpl; repeat case_match; simplify_eq/=; done.
Qed.

Lemma handle_asks_only_witness :
  table (core (handle calm_world plain_runtime 7 CmdStatus (Service monitoring_bot [] [])).2)
    = table monitoring_bot ∧
  monitoring_areas
    (core (handle calm_world plain_runtime 7 CmdStatus (Service monitoring_bot [] [])).2)
    = monitoring_areas monitoring_bot ∧
  notified_flights
    (core (handle calm_world plain_runtime 7 CmdStatus (Service monitoring_bot [] [])).2)
    = notified_flights monitoring_bot ∧
  trace (core (handle calm_world plain_runtime 7 CmdStatus (Service monitoring_bot [] [])).2)
    = trace monitoring_bot.
Proof.
  apply (handle_asks_only calm_world plain_runtime 7 CmdStatus (Service monitoring_bot [] [])).
  exact I.
Defined.

(** ** The areas stay in order *)

Lemma handle_asks_only_areas w rt chat r s :
  asks_only r →
  table (core (handle w rt chat r s).2) = table (core s) ∧
  monitoring_areas (core (handle w rt chat r s).2) = monitoring_areas (core s).
Proof.
  intros Hr. destruct r; try done;
    unfold handle, show_current_area, show_status, send_reply, area_info_of, now;
    unfold_H; unfold_M; simpl; repeat case_match; simplify_eq/=; done.
Qed.

Lemma elem_of_dict_set {V} (k : Z) (v : V) (d : list (Z * V)) (x : Z * V) :
  x ∈ Dict.set k v d → x = (k, v) ∨ x ∈ d.
Proof.
  induction d as [|[k' v'] d IH]; simpl.
  - intros ->%list_elem_of_singleton. by left.
  - destruct (bool_decide (k' = k)); simpl.
    + intros [->|Hin]%elem_of_cons; [by left|]. right. by right.
    + intros [->|Hin]%elem_of_cons; [right; by left|].
      destruct (IH Hin) as [->|Hin']; [by left|]. right. by right.
Qed.

Lemma NoDup_dict_set {V} (k : Z) (v : V) (d : list (Z * V)) :
  NoDup d.*1 → NoDup (Dict.set k v d).*1.
Proof.
  induction d as [|[k' v'] d IH]; simpl; intros Hnd.
  - apply NoDup_singleton.
  - apply NoDup_cons in Hnd as [Hnotin Hnd].
    destruct (bool_decide (k' = k)) eqn:E; simpl.
    + apply bool_decide_eq_true in E as ->. by apply NoDup_cons.
    + apply bool_decide_eq_false in E. apply NoDup_cons. split; [|by apply IH].
      intros ([k0 v0] & Hk0 & Hin)%list_elem_of_fmap. simpl in Hk0. subst k0.
      apply elem_of_dict_set in Hin as [[= -> _]|Hin]; [done|].
      apply Hnotin. apply list_elem_of_fmap. by exists (k', v0).
Qed.

Lemma NoDup_dict_del {V} (k : Z) (d : list (Z * V)) :
  NoDup d.*1 → NoDup (Dict.del k d).*1.
Proof.
  intros Hnd. eapply sublist_NoDup; [exact Hnd|].
  unfold Dict.del. apply fmap_sublist, sublist_filter.
Qed.

Lemma start_user_monitoring_areas w chat b :
  table (start_user_monitoring w chat b).2 = table b ∧
  monitoring_areas (start_user_monitoring w chat b).2 =
    match select_active_area chat (table b) with
    | Some row =>
        Dict.set chat
          (Area (north_lat row) (south_lat row) (east_lon row) (west_lon row) chat)
          (monitoring_areas b)
    | None => monitoring_areas b
    end.
Proof.
  unfold start_user_monitoring, bot_send_message, logger_info. unfold_M. simpl.
  destruct (select_active_area chat (table b)); simpl; by repeat case_match.
Qed.

Lemma stop_user_monitoring_areas w chat b :
  table (stop_user_monitoring w chat b).2 = table b ∧
  monitoring_areas (stop_user_monitoring w chat b).2 =
    (if Dict.mem chat (monitoring_areas b) then Dict.del chat (monitoring_areas b)
     else monitoring_areas b).
Proof.
  unfold stop_user_monitoring, bot_send_message, logger_info. unfold_M. simpl.
  destruct (Dict.mem chat (monitoring_areas b)); simpl; by repeat case_match.
Qed.

Lemma core_run {A} (m : M A) s : core (Svc.run m s).2 = (m (core s)).2.
Proof. unfold Svc.run. by destruct (m (core s)) as [[a|e] b]. Qed.

Lemma well_formed_same b b' :
  table b' = table b → monitoring_areas b' = monitoring_areas b →
  well_formed b → well_formed b'.
Proof. unfold well_formed. intros -> ->. done. Qed.

Lemma well_formed_insert b b' chat row :
  table b' = <[chat := row]> (table b) → monitoring_areas b' = monitoring_areas b →
  valid_row row → well_formed b → well_formed b'.
Proof.
  unfold well_formed. intros -> -> Hrow (Hrows & Hnd & Hareas).
  split; [|split; [done|]].
  - intros c r. rewrite lookup_insert. case_decide; [|by apply Hrows].
    by intros [= <-].
  - intros c a Hin. destruct (Hareas c a Hin) as (? & ? & Hsome).
    split; [done|]. split; [done|].
    rewrite lookup_insert. by case_decide.
Qed.

Lemma well_formed_start w chat b :
  well_formed b → well_formed (start_user_monitoring w chat b).2.
Proof.
  intros (Hrows & Hnd & Hareas).
  destruct (start_user_monitoring_areas w chat b) as [Ht Hm].
  unfold well_formed. rewrite Ht, Hm.
  destruct (select_active_area chat (table b)) as [row|] eqn:Hsel; [|done].
  assert (table b !! chat = Some row) as Hrow.
  { unfold select_active_area in Hsel. destruct (table b !! chat) as [r|]; [|done].
    by destruct (is_active r =? 1); simplify_eq. }
  split; [done|]. split; [by apply NoDup_dict_set|].
  intros c a [[= -> ->]|Hin]%elem_of_dict_set; [|by apply Hareas].
  simpl. split; [done|]. split; [by apply (Hrows chat row)|by rewrite Hrow].
Qed.

Lemma well_formed_stop w chat b :
  well_formed b → well_formed (stop_user_monitoring w chat b).2.
Proof.
  intros (Hrows & Hnd & Hareas).
  destruct (stop_user_monitoring_areas w chat b) as [Ht Hm].
  unfold well_formed. rewrite Ht, Hm.
  destruct (Dict.mem chat (monitoring_areas b)); [|done].
  split; [done|]. split; [by apply NoDup_dict_del|].
  intros c a [_ Hin]%list_elem_of_filter. by apply Hareas.
Qed.

Lemma well_formed_process_coordinates w rt chat text s :
  well_formed (core s) → well_formed (core (process_coordinates w rt chat text s).2).
Proof.
  intros Hwf.
  destruct (process_coordinates_areas w rt chat text s)
    as [Hm [Ht|(n & so & e & we & _ & Hvalid & Ht)]].
  - by eapply well_formed_same.
  - eapply well_formed_insert; [exact Ht|exact Hm| |exact Hwf]. by split.
Qed.

Lemma well_formed_handle w rt chat r s :
  well_formed (core s) → well_formed (core (handle w rt chat r s).2).
Proof.
  intros Hwf. destruct r;
    try (match goal with |- context [handle _ _ _ ?r _] =>
           destruct (handle_asks_only_areas w rt chat r s I) as [Ht Hm]
         end; by eapply well_formed_same).
  - unfold handle. rewrite core_run. by apply well_formed_start.
  - unfold handle. rewrite core_run. by apply well_formed_stop.
  - unfold handle. destruct (is_coordinate_message rt text); [|done].
    by apply well_formed_process_coordinates.
Qed.

Lemma reachable_well_formed_inv w rt s : reachable w rt s → well_formed (core s).
Proof.
  induction 1 as [|s chat r _ IH|s _ IH].
  - split; [|split]; simpl.
    + intros chat row Hrow. by rewrite lookup_empty in Hrow.
    + apply NoDup_nil_2.
    + intros chat a Hin. by apply elem_of_nil in Hin.
  - by apply well_formed_handle.
  - rewrite core_run.
    destruct (confined_monitor_cycle w (core s)) as (_ & Ht & Hm).
    by eapply well_formed_same.
Qed.

(** X20: the areas stay in order. In every state the bot can reach by
    handling messages and making passes, every stored row is a box that
    passes validation with its active flag set, no subscriber is monitored
    twice, and every monitored area is filed under the subscriber it
    names, is a valid box and belongs to a subscriber with a stored row. *)
Theorem reachable_well_formed (w : world) (rt : runtime) (s : service) :
  reachable w rt s → well_formed (core s).
Proof. apply reachable_well_formed_inv. Qed.

Lemma reachable_well_formed_witness :
  well_formed
    (core (handle calm_world plain_runtime 7 CmdStartMonitoring
             (handle calm_world plain_runtime 7 (Other (Some "26.95,26.87,75.82,75.74"))
                (Service initial_bot [] [])).2).2).
Proof.
  apply (reachable_well_formed calm_world plain_runtime).
  apply reachable_handle, reachable_handle, reachable_init.
Defined.

Lemma well_formed_counts b :
  well_formed b → (length (monitoring_areas b) ≤ count_active (table b))%nat.
Proof.
  intros (Hrows & Hnd & Hareas). unfold count_active.
  rewrite map_filter_id by (intros chat row Hrow; by apply (Hrows chat row)).
  rewrite <- (length_fmap fst), <- (size_list_to_set (C:=gset Z)) by done.
  rewrite <- (size_dom (D:=gset Z)). apply subseteq_size.
  intros chat [[c a] [-> Hin]]%elem_of_list_to_set%list_elem_of_fmap.
  apply elem_of_dom. by apply (Hareas c a).
Qed.

(** X21: the status never shows more active monitors than stored areas:
    in every reachable state, the status text carries the number of
    monitored subscribers and the number of stored active areas, and the
    first is at most the second. *)
Theorem show_status_counts (w : world) (rt : runtime) (chat : Z) (s : service) :
  reachable w rt s →
  ∃ active total monitoring time,
    replies (show_status w rt chat s).2 =
      (chat, StatusReport active total monitoring time) :: replies s ∧
    active = length (monitoring_areas (core s)) ∧
    total = count_active (table (core s)) ∧
    (active ≤ total)%nat.
Proof.
  intros Hreach. apply reachable_well_formed_inv in Hreach.
  eexists _, _, _, _. split; [|split; [reflexivity|split; [reflexivity|]]].
  - unfold show_status, send_reply, now. unfold_H. unfold_M. reflexivity.
  - by apply well_formed_counts.
Qed.

Lemma show_status_counts_witness :
  ∃ active total monitoring time,
    replies (show_status calm_world plain_runtime 7
               (handle calm_world plain_runtime 7 CmdStartMonitoring
                  (handle calm_world plain_runtime 7
                     (Other (Some "26.95,26.87,75.82,75.74"))
                     (Service initial_bot [] [])).2).2).2 =
      (7, StatusReport active total monitoring time)
      :: replies (handle calm_world plain_runtime 7 CmdStartMonitoring
                    (handle calm_world plain_runtime 7
                       (Other (Some "26.95,26.87,75.82,75.74"))
                       (Service initial_bot [] [])).2).2 ∧
    active = 1%nat ∧ total = 1%nat ∧ (active ≤ total)%nat.
Proof.
  destruct (show_status_counts calm_world plain_runtime 7
              (handle calm_world plain_runtime 7 CmdStartMonitoring
                 (handle calm_world plain_runtime 7
                    (Other (Some "26.95,26.87,75.82,75.74"))
                    (Service initial_bot [] [])).2).2)
    as (active & total & monitoring & time & Hreply & Hactive & Htotal & Hle).
  - apply reachable_handle, reachable_handle, reachable_init.
  - exists active, total, monitoring, time. split; [exact Hreply|].
    split; [rewrite Hactive; vm_compute; reflexivity|].
    split; [rewrite Htotal; vm_compute; reflexivity|exact Hle].
Defined.

(** ** From setting an area to the first request *)

Lemma elem_of_dict_set_eq {V} (k : Z) (v : V) (d : list (Z * V)) :
  (k, v) ∈ Dict.set k v d.
Proof.
  induction d as [|[k' v'] d IH]; simpl; [by left|].
  destruct (bool_decide (k' = k)); [by left|by right].
Qed.

Lemma monitor_cycle_requests w st chat a :
  (chat, a) ∈ monitoring_areas st →
  ∃ evs, trace (monitor_cycle w st).2 = evs ++ trace st ∧ HttpGet a ∈ evs.
Proof.
  intros Hin. unfold monitor_cycle.
  rewrite (try_except_bind_run Bot.get _ _ st st st) by done.
  destruct (for_each_monitor_area_ok w (monitoring_areas st) st)
    as (st1 & evs & Hrun & Htrace & Hall).
  destruct (length (monitoring_areas st) =? 0)%nat eqn:Eidle.
  - apply Nat.eqb_eq, nil_length_inv in Eidle. rewrite Eidle in Hin.
    by apply elem_of_nil in Hin.
  - rewrite (try_except_bind_run _ _ _ _ _ _ Hrun).
    unfold sleep, now. unfold_M. simpl.
    exists (Sleep 180 :: evs). split; [by rewrite Htrace|].
    apply elem_of_cons. right. by apply (Hall chat a).
Qed.

(** X22: setting an area and starting is enough to be watched: after
    [save_user_area] and [start_user_monitoring] for a subscriber, the
    next pass asks the feed for exactly the saved box, whether or not the
    reply to the start request was delivered. *)
Theorem saved_and_started_is_polled
    (w : world) (chat : Z) (n s e x : pyfloat) (st : bot) :
  let started := (start_user_monitoring w chat (save_user_area w chat n s e x st).2).2 in
  ∃ evs, trace (monitor_cycle w started).2 = evs ++ trace started ∧
         HttpGet (Area n s e x chat) ∈ evs.
Proof.
  intros started. apply (monitor_cycle_requests w started chat).
  subst started.
  destruct (start_user_monitoring_areas w chat (save_user_area w chat n s e x st).2)
    as [_ ->].
  unfold save_user_area, select_active_area. unfold_M. simpl.
  rewrite lookup_insert_eq. simpl. apply elem_of_dict_set_eq.
Qed.

(** ** Who is notified in a pass *)



Section delivery.
Variables (w : world) (chat : Z) (a : area).
Variables (data : json) (flights : list json) (flight first : json).
Hypothesis Hfeed : ∀ t, requests_get w t a = HttpResponse 200 (Ok data).
Hypothesis Htruthy : truthy data = true.
Hypothesis Hstates : py_get data "states" (JArr []) = Ok (JArr flights).
Hypothesis Hinside : is_flight_in_area flight a = Ok (JBool true).
Hypothesis Hfirst : py_getitem flight 0 = Ok first.
Hypothesis Hsink : ∀ t m, send_message w t chat m = Ok tt.

Let icao24 := py_or first (JStr "unknown").
Let key := notification_key w chat icao24.







End delivery.


